(** * Content controller and content router: a shallow embedding

    The development follows the Express content controller
    (createContent, getAllContent, getContentById, updateContent,
    deleteContent, searchContent, publishContent) and the content router
    that registers it.  Handlers are written in a small state-and-exception
    monad over a world made of the Prisma tables the controller touches,
    the search index, the logger output and a record of every call made to
    a collaborator.  Collaborator failures are injected by an environment. *)

From Stdlib Require Import ZArith QArith Qround Ascii String.
From stdpp Require Import gmap strings list.

Local Open Scope string_scope.
Local Open Scope list_scope.
Local Open Scope Z_scope.

(** ** Data model *)

(** A JavaScript value as far as the controller inspects one (the free-form
    [metadata] of a request body, the parsed [filters] of a search). *)
#[warnings="-register-all"]
Inductive jsval : Type :=
  | VUndefined
  | VNull
  | VBool (b : bool)
  | VNum (n : Z)
  | VStr (s : string)
  | VObj (fields : list (string * jsval)).

(** ToBoolean: [undefined], [null], [false], [0] and the empty string are
    falsy, every object is truthy. *)
Definition truthy (v : jsval) : bool :=
  match v with
  | VUndefined | VNull => false
  | VBool b => b
  | VNum n => negb (n =? 0)
  | VStr s => negb (String.eqb s "")
  | VObj _ => true
  end.

(** [a || b] on values. *)
Definition js_or (a b : jsval) : jsval := if truthy a then a else b.

(** Truthiness of an optional query-string parameter: present and not empty. *)
Definition str_truthy (o : option string) : bool :=
  match o with
  | Some s => negb (String.eqb s "")
  | None => false
  end.

Record Content : Type := mkContent {
  c_id : string;
  c_title : string;
  c_body : string;
  c_status : string;
  c_version : Z;
  c_authorId : string;
  c_categoryId : option string;
  c_tags : gset string;
  c_metadata : jsval;
  c_createdAt : Z;
  c_updatedAt : Z;
  c_publishedAt : option Z;
  c_deletedAt : option Z
}.

Record ContentVersion : Type := mkContentVersion {
  cv_contentId : string;
  cv_title : string;
  cv_body : string;
  cv_version : Z;
  cv_createdBy : string;
  cv_createdAt : Z
}.

Record ContentView : Type := mkContentView {
  v_contentId : string;
  v_userId : string;
  v_ipAddress : string
}.

(** ** Requests and responses *)

Record User : Type := mkUser { u_id : string; u_role : string }.

(** [req.body] after destructuring: a field left out is [undefined]. *)
Record Body : Type := mkBody {
  b_title : option string;
  b_body : option string;
  b_categoryId : option string;
  b_tags : option (list string);
  b_metadata : jsval
}.

(** [req.query]: every value is the text of the query string, [None] when
    the parameter is left out.  (A repeated or bracketed parameter reaches
    [parseInt] and the arithmetic as the text ToString gives it.) *)
Record Query : Type := mkQuery {
  q_page : option string;
  q_limit : option string;
  q_status : option string;
  q_categoryId : option string;
  q_authorId : option string;
  q_sortBy : option string;
  q_order : option string;
  q_search : option string;
  q_query : option string;
  q_filters : option string
}.

Record Request : Type := mkRequest {
  req_id : string;          (* req.params.id *)
  req_body : Body;
  req_query : Query;
  req_user : User;
  req_ip : string
}.

(** A JavaScript number as it reaches [res.json]: an integer, or a value
    that is not finite (division by zero), which JSON renders as [null]. *)
Inductive jsnum : Type :=
  | Num (z : Z)
  | NotFinite.

(** *** JavaScript numbers *)

(** A Number: a finite double, held as the rational it denotes, an infinity
    or NaN.  The sign of an infinity and of zero is not kept: the handlers
    print NaN and both infinities as [null] and both zeros as [0], and read
    the text of either infinity as NaN. *)
Inductive number : Type :=
  | Finite (q : Q)
  | Infinite
  | NaN.

(** [n / d] rounded to the nearest integer, ties to even ([d] positive). *)
Definition round_half_even (n d : Z) : Z :=
  let q := n / d in
  let r := n mod d in
  if 2 * r <? d then q
  else if d <? 2 * r then q + 1
  else if Z.even q then q else q + 1.

(** The largest [e] with [2^e <= n / d] ([n] and [d] positive). *)
Definition binade (n d : Z) : Z :=
  let e := Z.log2 n - Z.log2 d in
  if 0 <=? e
  then (if d * 2 ^ e <=? n then e else e - 1)
  else (if d <=? n * 2 ^ (- e) then e else e - 1).

(** A rational rounded to the nearest double, ties to even: 53 significant
    bits, exponents from -1022 (below, the spacing stays 2^-1074) to 1023
    (beyond, the result is an infinity). *)
Definition round64 (q : Q) : number :=
  let n := Z.abs (Qnum q) in
  let d := Z.pos (Qden q) in
  if n =? 0 then Finite 0
  else
    let t := Z.max (binade n d) (-1022) - 52 in
    let s := if Qnum q <? 0 then -1 else 1 in
    if 0 <=? t then
      let m := round_half_even n (d * 2 ^ t) in
      if 2 ^ 1024 <=? m * 2 ^ t then Infinite
      else Finite (inject_Z (s * m * 2 ^ t))
    else
      let m := round_half_even (n * 2 ^ (- t)) d in
      Finite (Qred (Qmake (s * m) (Z.to_pos (2 ^ (- t))))).

Definition of_Z (z : Z) : number := round64 (inject_Z z).

(** [a / b] *)
Definition num_div (a b : number) : number :=
  match a, b with
  | NaN, _ | _, NaN => NaN
  | Infinite, Infinite => NaN
  | Infinite, Finite _ => Infinite
  | Finite _, Infinite => Finite 0
  | Finite x, Finite y =>
      if Qeq_bool y 0 then (if Qeq_bool x 0 then NaN else Infinite)
      else round64 (x / y)
  end.

(** [a * b] *)
Definition num_mul (a b : number) : number :=
  match a, b with
  | NaN, _ | _, NaN => NaN
  | Infinite, Infinite => Infinite
  | Infinite, Finite x | Finite x, Infinite => if Qeq_bool x 0 then NaN else Infinite
  | Finite x, Finite y => round64 (x * y)
  end.

(** [a - 1] *)
Definition num_pred (a : number) : number :=
  match a with
  | Finite x => round64 (x - 1)
  | Infinite => Infinite
  | NaN => NaN
  end.

(** [Math.ceil(a)] as it is printed: an integer, or [null]. *)
Definition Math_ceil (a : number) : jsnum :=
  match a with
  | Finite x => Num (Qceiling x)
  | Infinite | NaN => NotFinite
  end.

(** *** Reading numbers from text *)

(** White space among the code units 0 to 255: tab, line feed, vertical
    tab, form feed, carriage return, space, no-break space. *)
Definition is_white_space (a : ascii) : bool :=
  let n := nat_of_ascii a in
  ((9 <=? n) && (n <=? 13) || (n =? 32) || (n =? 160))%nat.

Fixpoint skip_white_space (l : list ascii) : list ascii :=
  match l with
  | a :: l' => if is_white_space a then skip_white_space l' else l
  | [] => []
  end.

Definition trim (l : list ascii) : list ascii :=
  rev (skip_white_space (rev (skip_white_space l))).

(** The value of a digit in radixes up to 36. *)
Definition digit_of (a : ascii) : option Z :=
  let n := Z.of_nat (nat_of_ascii a) in
  if (48 <=? n) && (n <=? 57) then Some (n - 48)
  else if (97 <=? n) && (n <=? 122) then Some (n - 87)
  else if (65 <=? n) && (n <=? 90) then Some (n - 55)
  else None.

(** The longest run of digits of the radix at the head of the text: its
    value, its length and what follows it. *)
Fixpoint read_digits (radix : Z) (l : list ascii) (acc : Z) (count : nat)
  : Z * nat * list ascii :=
  match l with
  | a :: l' =>
      match digit_of a with
      | Some d =>
          if d <? radix then read_digits radix l' (acc * radix + d) (S count)
          else (acc, count, l)
      | None => (acc, count, l)
      end
  | [] => (acc, count, [])
  end.

Definition drop_sign (l : list ascii) : bool * list ascii :=
  match l with
  | "-"%char :: l' => (true, l')
  | "+"%char :: l' => (false, l')
  | _ => (false, l)
  end.

(** An integer as the Number it rounds to, printed. *)
Definition integer_number (z : Z) : jsnum :=
  match of_Z z with
  | Finite q => Num (Qfloor q)
  | Infinite | NaN => NotFinite
  end.

(** [parseInt(s)] with no radix: leading white space, a sign, an optional
    [0x], then the digits up to the first character that is none; NaN when
    there is no digit. *)
Definition parseInt (s : string) : jsnum :=
  let '(neg, l) := drop_sign (skip_white_space (list_ascii_of_string s)) in
  let '(radix, l) :=
    match l with
    | "0"%char :: "x"%char :: l' | "0"%char :: "X"%char :: l' => (16, l')
    | _ => (10, l)
    end in
  let '(v, count, _) := read_digits radix l 0 0 in
  match count with
  | O => NotFinite
  | S _ => integer_number (if neg then - v else v)
  end.

(** A literal [0x..], [0o..] or [0b..]: digits of the radix and nothing else. *)
Definition radix_literal (radix : Z) (l : list ascii) : number :=
  match read_digits radix l 0 0 with
  | (v, S _, []) => of_Z v
  | _ => NaN
  end.

(** The exponent part of a decimal literal: nothing, or [e] or [E], a sign
    and at least one digit, up to the end of the text. *)
Definition exponent_part (l : list ascii) : option Z :=
  match l with
  | [] => Some 0
  | "e"%char :: l' | "E"%char :: l' =>
      let '(neg, l'') := drop_sign l' in
      match read_digits 10 l'' 0 0 with
      | (v, S _, []) => Some (if neg then - v else v)
      | _ => None
      end
  | _ => None
  end.

(** [m * 10^e] *)
Definition scale10 (m e : Z) : Q :=
  if 0 <=? e then inject_Z (m * 10 ^ e)
  else Qmake m (Z.to_pos (10 ^ (- e))).

Definition decimal_literal (l : list ascii) : number :=
  let '(neg, l) := drop_sign l in
  if String.eqb (string_of_list_ascii l) "Infinity" then Infinite
  else
    let '(ip, ni, l1) := read_digits 10 l 0 0 in
    let '(m, nf, l2) :=
      match l1 with
      | "."%char :: l' => read_digits 10 l' ip 0
      | _ => (ip, O, l1)
      end in
    match (ni + nf)%nat, exponent_part l2 with
    | S _, Some e =>
        round64 (scale10 (if neg then - m else m) (e - Z.of_nat nf))
    | _, _ => NaN
    end.

(** ToNumber on a string: white space trimmed at both ends, the empty text
    is 0, then a decimal literal (sign, digits, fraction, exponent, or
    Infinity) or an unsigned literal in radix 16, 8 or 2; anything else is
    NaN. *)
Definition StringToNumber (s : string) : number :=
  match trim (list_ascii_of_string s) with
  | [] => Finite 0
  | "0"%char :: "x"%char :: l | "0"%char :: "X"%char :: l => radix_literal 16 l
  | "0"%char :: "o"%char :: l | "0"%char :: "O"%char :: l => radix_literal 8 l
  | "0"%char :: "b"%char :: l | "0"%char :: "B"%char :: l => radix_literal 2 l
  | l => decimal_literal l
  end.

(** *** Printing numbers *)

(** [10^k <= n / d] *)
Definition pow10_le (k n d : Z) : bool :=
  if 0 <=? k then d * 10 ^ k <=? n else d <=? n * 10 ^ (- k).

(** The largest [k] with [10^k <= n / d], searched from a guess. *)
Fixpoint decade_from (fuel : nat) (k n d : Z) : Z :=
  match fuel with
  | O => k
  | S fuel' =>
      if negb (pow10_le k n d) then decade_from fuel' (k - 1) n d
      else if pow10_le (k + 1) n d then decade_from fuel' (k + 1) n d
      else k
  end.

Definition decade (n d : Z) : Z :=
  decade_from 8 (((Z.log2 n - Z.log2 d) * 30103) / 100000) n d.

Fixpoint digits_from (fuel : nat) (n : Z) (acc : list ascii) : list ascii :=
  match fuel with
  | O => acc
  | S fuel' =>
      let a := ascii_of_nat (Z.to_nat (48 + n mod 10)) in
      if n <? 10 then a :: acc else digits_from fuel' (n / 10) (a :: acc)
  end.

(** The decimal digits of a natural number. *)
Definition digits (n : Z) : list ascii :=
  digits_from (S (Z.to_nat (Z.log2 n))) n [].

Definition same_number (a b : number) : bool :=
  match a, b with
  | Finite x, Finite y => Qeq_bool x y
  | Infinite, Infinite | NaN, NaN => true
  | _, _ => false
  end.

(** The shortest decimal [s * 10^(n-k)], [s] of [k] digits, that reads
    back as the positive double [q]; of two, the nearer one.  The search
    tries 1 to 17 digits. *)
Fixpoint shortest_from (fuel : nat) (k : Z) (dec : Z) (q : Q) : Z * Z * Z :=
  let p := dec + 1 - k in
  let lo := Qfloor (q / scale10 1 p) in
  let hi := lo + 1 in
  let ok_lo := same_number (round64 (scale10 lo p)) (Finite q) in
  let ok_hi := same_number (round64 (scale10 hi p)) (Finite q) in
  let pick_hi := if hi =? 10 ^ k then (10 ^ (k - 1), k, dec + 2) else (hi, k, dec + 1) in
  let pick_lo := (lo, k, dec + 1) in
  match fuel with
  | O => pick_lo
  | S fuel' =>
      if ok_lo && ok_hi then
        match (q - scale10 lo p) ?= (scale10 hi p - q) with
        | Lt => pick_lo
        | Gt => pick_hi
        | Eq => if Z.even lo then pick_lo else pick_hi
        end%Q
      else if ok_lo then pick_lo
      else if ok_hi then pick_hi
      else shortest_from fuel' (k + 1) dec q
  end.

Definition zeros (n : Z) : list ascii := repeat "0"%char (Z.to_nat n).

(** Number::toString for a positive double. *)
Definition positive_to_list (q : Q) : list ascii :=
  let '(s, k, n) := shortest_from 17 1 (decade (Qnum q) (Z.pos (Qden q))) q in
  let ds := digits s in
  if (k <=? n) && (n <=? 21) then ds ++ zeros (n - k)
  else if (0 <? n) && (n <=? 21) then
    take (Z.to_nat n) ds ++ "."%char :: drop (Z.to_nat n) ds
  else if (-6 <? n) && (n <=? 0) then
    "0"%char :: "."%char :: zeros (- n) ++ ds
  else
    let e := n - 1 in
    let ex := (if e <? 0 then "-"%char else "+"%char) :: digits (Z.abs e) in
    match ds with
    | [d1] => d1 :: "e"%char :: ex
    | d1 :: rest => d1 :: "."%char :: rest ++ "e"%char :: ex
    | [] => []
    end.

(** ToString on a Number (an infinity prints without its sign, which
    [parseInt] does not look at). *)
Definition Number_toString (a : number) : string :=
  match a with
  | NaN => "NaN"
  | Infinite => "Infinity"
  | Finite q =>
      match Qnum q with
      | Z0 => "0"
      | Zpos _ => string_of_list_ascii (positive_to_list q)
      | Zneg _ => string_of_list_ascii ("-"%char :: positive_to_list (- q))
      end
  end.

Record Pagination : Type := mkPagination {
  pg_page : jsnum;
  pg_limit : jsnum;
  pg_total : Z;
  pg_pages : jsnum
}.

Inductive Data : Type :=
  | DNone
  | DContent (c : Content)
  | DContents (l : list Content).

Record Envelope : Type := mkEnvelope {
  success : bool;
  data : Data;
  message : option string;
  pagination : option Pagination
}.

Record AppError : Type := mkAppError { err_message : string; err_status : Z }.

(** What a handler does with its request: [res.status(s).json(e)] or
    [next(err)]. *)
Inductive Outcome : Type :=
  | Json (status : Z) (e : Envelope)
  | Next (err : AppError).

(** ** Collaborator calls *)

Inductive Call : Type :=
  | CContentCreate
  | CContentFindUnique (id : string)
  | CContentUpdate (id : string)
  | CContentCount
  | CContentFindMany
  | CVersionCreate (id : string)
  | CViewCreate (id : string)
  | CAnalyze (id : string)
  | CSearchIndex (id : string)
  | CSearchUpdate (id : string)
  | CSearchDelete (id : string)
  | CSearchQuery
  | CCacheDel (key : string)
  | CNotifyPublished (id : string).

#[global] Instance Call_eq_dec : EqDecision Call.
Proof. solve_decision. Defined.

(** The four downstream collaborators of a mutation. *)
Inductive Downstream : Type :=
  | Analysis
  | SearchSync
  | Notification
  | CacheInvalidation.

Definition downstream_of (c : Call) : option Downstream :=
  match c with
  | CAnalyze _ => Some Analysis
  | CSearchIndex _ | CSearchUpdate _ | CSearchDelete _ => Some SearchSync
  | CNotifyPublished _ => Some Notification
  | CCacheDel _ => Some CacheInvalidation
  | _ => None
  end.

(** The write of a mutation to the primary store: the content row itself. *)
Definition is_store_write (c : Call) : bool :=
  match c with
  | CContentCreate | CContentUpdate _ => true
  | _ => false
  end.

Inductive Exn : Type :=
  | StoreError (c : Call)
  | RecordNotFound (id : string)
  | ValidationError (field : string)
  | UniqueViolation (id : string)
  | DependencyError (c : Call)
  | SyntaxError.

Inductive LogEntry : Type :=
  | LogError (msg : string) (e : Exn)
  | LogInfo (msg : string).

(** ** The world *)

Record World : Type := mkWorld {
  contents : gmap string Content;          (* prisma.content *)
  contentVersions : list ContentVersion;   (* prisma.contentVersion, oldest first *)
  contentViews : list ContentView;         (* prisma.contentView *)
  tagNames : gset string;                  (* the tag dictionary *)
  searchDocs : gmap string Content;        (* the search index *)
  logged : list LogEntry;                  (* logger output, oldest first *)
  callRecord : list (Call * bool)          (* every collaborator call and whether it succeeded *)
}.

Definition set_contents (f : gmap string Content -> gmap string Content) (w : World) : World :=
  mkWorld (f (contents w)) (contentVersions w) (contentViews w) (tagNames w)
          (searchDocs w) (logged w) (callRecord w).
Definition set_contentVersions (f : list ContentVersion -> list ContentVersion) (w : World) : World :=
  mkWorld (contents w) (f (contentVersions w)) (contentViews w) (tagNames w)
          (searchDocs w) (logged w) (callRecord w).
Definition set_contentViews (f : list ContentView -> list ContentView) (w : World) : World :=
  mkWorld (contents w) (contentVersions w) (f (contentViews w)) (tagNames w)
          (searchDocs w) (logged w) (callRecord w).
Definition set_tagNames (f : gset string -> gset string) (w : World) : World :=
  mkWorld (contents w) (contentVersions w) (contentViews w) (f (tagNames w))
          (searchDocs w) (logged w) (callRecord w).
Definition set_searchDocs (f : gmap string Content -> gmap string Content) (w : World) : World :=
  mkWorld (contents w) (contentVersions w) (contentViews w) (tagNames w)
          (f (searchDocs w)) (logged w) (callRecord w).
Definition set_logged (f : list LogEntry -> list LogEntry) (w : World) : World :=
  mkWorld (contents w) (contentVersions w) (contentViews w) (tagNames w)
          (searchDocs w) (f (logged w)) (callRecord w).
Definition record_call (c : Call) (ok : bool) (w : World) : World :=
  mkWorld (contents w) (contentVersions w) (contentViews w) (tagNames w)
          (searchDocs w) (logged w) (callRecord w ++ [(c, ok)]).

(** ** The handler monad: state over [World], with exceptions *)

Inductive Result (A : Type) : Type :=
  | Ok (a : A)
  | Throw (e : Exn).
Arguments Ok {A} a.
Arguments Throw {A} e.

Definition M (A : Type) : Type := World -> Result A * World.

Definition ret {A} (a : A) : M A := fun w => (Ok a, w).

Definition bind {A B} (m : M A) (k : A -> M B) : M B :=
  fun w =>
    match m w with
    | (Ok a, w') => k a w'
    | (Throw e, w') => (Throw e, w')
    end.

Definition throw {A} (e : Exn) : M A := fun w => (Throw e, w).

(** [try { body } catch (error) { handler }], also [promise.catch(handler)]. *)
Definition try_catch {A} (body : M A) (handler : Exn -> M A) : M A :=
  fun w =>
    match body w with
    | (Ok a, w') => (Ok a, w')
    | (Throw e, w') => handler e w'
    end.

Declare Scope handler_scope.
Delimit Scope handler_scope with handler.
Notation "x <- m ;; k" := (bind m (fun x => k))
  (at level 100, m at next level, right associativity) : handler_scope.
Notation "m ;;; k" := (bind m (fun _ => k))
  (at level 100, right associativity) : handler_scope.
Local Open Scope handler_scope.

(** A collaborator call: rejected when the environment says this call
    fails, and recorded with whether it went through (an update of a row
    that does not exist is a failed call). *)
Definition call {A} (fails : Call -> bool) (c : Call) (e : Exn) (effect : M A) : M A :=
  fun w =>
    if fails c then (Throw e, record_call c false w)
    else match effect w with
         | (Ok a, w') => (Ok a, record_call c true w')
         | (Throw e', w') => (Throw e', record_call c false w')
         end.

(** ** The environment of one request *)

(** The filter object [where] that getAllContent builds. *)
Record Where : Type := mkWhere {
  w_status : option string;
  w_categoryId : option string;
  w_authorId : option string;
  w_OR : option string       (* title or body contains it, case-insensitive *)
}.

(** The argument of [searchService.search]. *)
Record SearchArgs : Type := mkSearchArgs {
  s_query : option string;
  s_filters : jsval;
  s_page : jsnum;
  s_limit : jsnum
}.

Record SearchResults : Type := mkSearchResults {
  hits : list Content;
  total : Z
}.

Record Env : Type := mkEnv {
  fails : Call -> bool;      (* which collaborator calls reject *)
  now : Z;                   (* new Date() *)
  new_id : string;           (* the id the database gives the next content row *)
  db_count : gmap string Content -> Where -> Z;
  db_findMany : gmap string Content -> Where -> jsnum -> jsnum -> string -> string
                -> option (list Content);   (* None: the arguments are rejected *)
  engine_search : gmap string Content -> SearchArgs -> SearchResults;
  JSON_parse : string -> option jsval
}.

(** ** Prisma client *)

(** [data] of [prisma.content.create]. *)
Record CreateData : Type := mkCreateData {
  cd_title : option string;
  cd_body : option string;
  cd_authorId : string;
  cd_categoryId : option string;
  cd_status : string;
  cd_metadata : jsval;
  cd_connectOrCreate : list string
}.

(** [data] of [prisma.content.update]: a field that is [undefined] is left
    as it is. *)
Record UpdateData : Type := mkUpdateData {
  ud_title : option string;
  ud_body : option string;
  ud_categoryId : option string;
  ud_metadata : option jsval;
  ud_version : option Z;
  ud_updatedAt : option Z;
  ud_tags : option (list string);   (* set: [] followed by connectOrCreate *)
  ud_status : option string;
  ud_publishedAt : option Z;
  ud_deletedAt : option Z
}.

Definition no_change : UpdateData :=
  mkUpdateData None None None None None None None None None None.

(** An [undefined] value in [data] is no field at all. *)
Definition defined (v : jsval) : option jsval :=
  match v with
  | VUndefined => None
  | _ => Some v
  end.

(** Modelled from the spec: the Prisma schema is missing; the spec has every
    item inserted with version 1. *)
Definition schema_default_version : Z := 1.

Definition apply_update (d : UpdateData) (c : Content) : Content :=
  mkContent
    (c_id c)
    (default (c_title c) (ud_title d))
    (default (c_body c) (ud_body d))
    (default (c_status c) (ud_status d))
    (default (c_version c) (ud_version d))
    (c_authorId c)
    (match ud_categoryId d with Some k => Some k | None => c_categoryId c end)
    (match ud_tags d with Some ts => list_to_set ts | None => c_tags c end)
    (default (c_metadata c) (ud_metadata d))
    (c_createdAt c)
    (default (c_updatedAt c) (ud_updatedAt d))
    (match ud_publishedAt d with Some t => Some t | None => c_publishedAt c end)
    (match ud_deletedAt d with Some t => Some t | None => c_deletedAt c end).

Section Collaborators.

Context (env : Env).

(** [prisma.content.create]: title and body are required columns, status is
    the one given, the other columns take the schema defaults, and every
    tag name is connected to its dictionary entry or created there. *)
Definition prisma_content_create (d : CreateData) : M Content :=
  call (fails env) CContentCreate (StoreError CContentCreate)
    (fun w =>
       match cd_title d, cd_body d with
       | Some t, Some b =>
           match contents w !! new_id env with
           | Some _ => (Throw (UniqueViolation (new_id env)), w)
           | None =>
               let c := mkContent (new_id env) t b (cd_status d) schema_default_version
                          (cd_authorId d) (cd_categoryId d)
                          (list_to_set (cd_connectOrCreate d)) (cd_metadata d)
                          (now env) (now env) None None in
               (Ok c,
                set_tagNames (fun ts => ts ∪ list_to_set (cd_connectOrCreate d))
                  (set_contents (insert (new_id env) c) w))
           end
       | None, _ => (Throw (ValidationError "title"), w)
       | _, None => (Throw (ValidationError "body"), w)
       end).

Definition prisma_content_findUnique (id : string) : M (option Content) :=
  call (fails env) (CContentFindUnique id) (StoreError (CContentFindUnique id))
    (fun w => (Ok (contents w !! id), w)).

(** [prisma.content.update] rejects when no row has the id. *)
Definition prisma_content_update (id : string) (d : UpdateData) : M Content :=
  call (fails env) (CContentUpdate id) (StoreError (CContentUpdate id))
    (fun w =>
       match contents w !! id with
       | None => (Throw (RecordNotFound id), w)
       | Some c =>
           let c' := apply_update d c in
           (Ok c',
            set_tagNames (fun ts => ts ∪ from_option list_to_set ∅ (ud_tags d))
              (set_contents (insert id c') w))
       end).

Definition prisma_content_count (wh : Where) : M Z :=
  call (fails env) CContentCount (StoreError CContentCount)
    (fun w => (Ok (db_count env (contents w) wh), w)).

Definition prisma_content_findMany (wh : Where) (skip take : jsnum) (sortBy order : string)
  : M (list Content) :=
  call (fails env) CContentFindMany (StoreError CContentFindMany)
    (fun w =>
       match db_findMany env (contents w) wh skip take sortBy order with
       | Some rows => (Ok rows, w)
       | None => (Throw (ValidationError "findMany"), w)
       end).

Definition prisma_contentVersion_create (contentId title body : string) (version : Z)
    (createdBy : string) : M unit :=
  call (fails env) (CVersionCreate contentId) (StoreError (CVersionCreate contentId))
    (fun w =>
       (Ok tt,
        set_contentVersions
          (fun vs => vs ++ [mkContentVersion contentId title body version createdBy (now env)])
          w)).

Definition prisma_contentView_create (contentId userId ipAddress : string) : M unit :=
  call (fails env) (CViewCreate contentId) (StoreError (CViewCreate contentId))
    (fun w =>
       (Ok tt, set_contentViews (fun vs => vs ++ [mkContentView contentId userId ipAddress]) w)).

(** ** Services *)

(** The analysis call returns a promise; the controller attaches its
    rejection handler at the call and does not await it.  The run here takes
    the rejection at the call site. *)
Definition mlService_analyzeContent (id : string) : M unit :=
  call (fails env) (CAnalyze id) (DependencyError (CAnalyze id)) (ret tt).

(** Modelled from the spec: services/search.service is missing; the spec's
    search contract is index(doc), update(doc), delete(id) and
    search(query, filters, page, limit) -> {hits, total}, where delete
    removes the document entirely. *)
Definition searchService_indexContent (c : Content) : M unit :=
  call (fails env) (CSearchIndex (c_id c)) (DependencyError (CSearchIndex (c_id c)))
    (fun w => (Ok tt, set_searchDocs (insert (c_id c) c) w)).

Definition searchService_updateContent (c : Content) : M unit :=
  call (fails env) (CSearchUpdate (c_id c)) (DependencyError (CSearchUpdate (c_id c)))
    (fun w => (Ok tt, set_searchDocs (insert (c_id c) c) w)).

Definition searchService_deleteContent (id : string) : M unit :=
  call (fails env) (CSearchDelete id) (DependencyError (CSearchDelete id))
    (fun w => (Ok tt, set_searchDocs (delete id) w)).

Definition searchService_search (a : SearchArgs) : M SearchResults :=
  call (fails env) CSearchQuery (DependencyError CSearchQuery)
    (fun w => (Ok (engine_search env (searchDocs w) a), w)).

Definition cacheService_del (key : string) : M unit :=
  call (fails env) (CCacheDel key) (DependencyError (CCacheDel key)) (ret tt).

Definition notificationService_notifyContentPublished (c : Content) : M unit :=
  call (fails env) (CNotifyPublished (c_id c)) (DependencyError (CNotifyPublished (c_id c)))
    (ret tt).

Definition logger_error (msg : string) (e : Exn) : M unit :=
  fun w => (Ok tt, set_logged (fun l => l ++ [LogError msg e]) w).

Definition logger_info (msg : string) : M unit :=
  fun w => (Ok tt, set_logged (fun l => l ++ [LogInfo msg]) w).

End Collaborators.

(** ** The content controller *)

(** A value destructured from [req.query] with a numeric default: the text
    given, or the default number. *)
Inductive given : Type :=
  | Text (s : string)
  | Default (n : Z).

Definition or_default (o : option string) (n : Z) : given :=
  match o with
  | Some s => Text s
  | None => Default n
  end.

(** The implicit ToNumber of the arithmetic operators. *)
Definition ToNumber (v : given) : number :=
  match v with
  | Text s => StringToNumber s
  | Default n => of_Z n
  end.

(** [parseInt(x)] on a Number: the number is printed first. *)
Definition parseInt_number (a : number) : jsnum := parseInt (Number_toString a).

Definition parseInt_given (v : given) : jsnum :=
  match v with
  | Text s => parseInt s
  | Default n => parseInt_number (of_Z n)
  end.

Definition ok_envelope (d : Data) (msg : option string) (p : option Pagination) : Envelope :=
  mkEnvelope true d msg p.

Section Controller.

Context (env : Env).

Definition createContent (req : Request) : M Outcome :=
  try_catch
    (let b := req_body req in
     let userId := u_id (req_user req) in
     content <- prisma_content_create env
                  (mkCreateData (b_title b) (b_body b) userId (b_categoryId b) "draft"
                     (js_or (b_metadata b) (VObj []))
                     (default [] (b_tags b))) ;;
     try_catch (mlService_analyzeContent env (c_id content))
       (fun error => logger_error "Error analyzing content:" error) ;;;
     searchService_indexContent env content ;;;
     cacheService_del env "content:list:*" ;;;
     logger_info ("Content created: " +:+ c_id content +:+ " by user " +:+ userId) ;;;
     ret (Json 201 (ok_envelope (DContent content) (Some "Content created successfully") None)))
    (fun error =>
       logger_error "Error creating content:" error ;;;
       ret (Next (mkAppError "Failed to create content" 500))).

Definition getAllContent (req : Request) : M Outcome :=
  try_catch
    (let q := req_query req in
     let page := or_default (q_page q) 1 in
     let limit := or_default (q_limit q) 20 in
     let sortBy := default "createdAt" (q_sortBy q) in
     let order := default "desc" (q_order q) in
     let skip := num_mul (num_pred (ToNumber page)) (ToNumber limit) in
     let wh :=
       mkWhere (if str_truthy (q_status q) then q_status q else None)
               (if str_truthy (q_categoryId q) then q_categoryId q else None)
               (if str_truthy (q_authorId q) then q_authorId q else None)
               (if str_truthy (q_search q) then q_search q else None) in
     total <- prisma_content_count env wh ;;
     content <- prisma_content_findMany env wh (parseInt_number skip) (parseInt_given limit)
                  sortBy order ;;
     ret (Json 200
            (ok_envelope (DContents content) None
               (Some (mkPagination (parseInt_given page) (parseInt_given limit) total
                        (Math_ceil (num_div (of_Z total) (ToNumber limit))))))))
    (fun error =>
       logger_error "Error fetching content:" error ;;;
       ret (Next (mkAppError "Failed to fetch content" 500))).

Definition getContentById (req : Request) : M Outcome :=
  try_catch
    (let id := req_id req in
     content <- prisma_content_findUnique env id ;;
     match content with
     | None => ret (Next (mkAppError "Content not found" 404))
     | Some c =>
         try_catch (prisma_contentView_create env id (u_id (req_user req)) (req_ip req))
           (fun _ => ret tt) ;;;
         ret (Json 200 (ok_envelope (DContent c) None None))
     end)
    (fun error =>
       logger_error "Error fetching content:" error ;;;
       ret (Next (mkAppError "Failed to fetch content" 500))).

Definition updateContent (req : Request) : M Outcome :=
  try_catch
    (let id := req_id req in
     let b := req_body req in
     let userId := u_id (req_user req) in
     existingContent <- prisma_content_findUnique env id ;;
     match existingContent with
     | None => ret (Next (mkAppError "Content not found" 404))
     | Some existing =>
         if negb (String.eqb (c_authorId existing) userId)
            && negb (String.eqb (u_role (req_user req)) "admin")
         then ret (Next (mkAppError "Not authorized to update this content" 403))
         else
           prisma_contentVersion_create env id (c_title existing) (c_body existing)
             (c_version existing) userId ;;;
           content <- prisma_content_update env id
                        (mkUpdateData (b_title b) (b_body b) (b_categoryId b)
                           (defined (js_or (b_metadata b) (c_metadata existing)))
                           (Some (c_version existing + 1))
                           (Some (now env))
                           (b_tags b)
                           None None None) ;;
           try_catch (mlService_analyzeContent env (c_id content))
             (fun error => logger_error "Error analyzing content:" error) ;;;
           searchService_updateContent env content ;;;
           cacheService_del env ("content:" +:+ id) ;;;
           cacheService_del env "content:list:*" ;;;
           logger_info ("Content updated: " +:+ id +:+ " by user " +:+ userId) ;;;
           ret (Json 200 (ok_envelope (DContent content) (Some "Content updated successfully") None))
     end)
    (fun error =>
       logger_error "Error updating content:" error ;;;
       ret (Next (mkAppError "Failed to update content" 500))).

Definition deleteContent (req : Request) : M Outcome :=
  try_catch
    (let id := req_id req in
     let userId := u_id (req_user req) in
     content <- prisma_content_findUnique env id ;;
     match content with
     | None => ret (Next (mkAppError "Content not found" 404))
     | Some c =>
         if negb (String.eqb (c_authorId c) userId)
            && negb (String.eqb (u_role (req_user req)) "admin")
         then ret (Next (mkAppError "Not authorized to delete this content" 403))
         else
           prisma_content_update env id
             (mkUpdateData None None None None None None None
                (Some "deleted") None (Some (now env))) ;;;
           searchService_deleteContent env id ;;;
           cacheService_del env ("content:" +:+ id) ;;;
           cacheService_del env "content:list:*" ;;;
           logger_info ("Content deleted: " +:+ id +:+ " by user " +:+ userId) ;;;
           ret (Json 200 (ok_envelope DNone (Some "Content deleted successfully") None))
     end)
    (fun error =>
       logger_error "Error deleting content:" error ;;;
       ret (Next (mkAppError "Failed to delete content" 500))).

Definition searchContent (req : Request) : M Outcome :=
  try_catch
    (let q := req_query req in
     let page := or_default (q_page q) 1 in
     let limit := or_default (q_limit q) 20 in
     filters <- match q_filters q with
                | Some s =>
                    if negb (String.eqb s "")
                    then match JSON_parse env s with
                         | Some v => ret v
                         | None => throw SyntaxError
                         end
                    else ret (VObj [])
                | None => ret (VObj [])
                end ;;
     results <- searchService_search env
                  (mkSearchArgs (q_query q) filters (parseInt_given page) (parseInt_given limit)) ;;
     ret (Json 200
            (ok_envelope (DContents (hits results)) None
               (Some (mkPagination (parseInt_given page) (parseInt_given limit) (total results)
                        (Math_ceil (num_div (of_Z (total results)) (ToNumber limit))))))))
    (fun error =>
       logger_error "Error searching content:" error ;;;
       ret (Next (mkAppError "Failed to search content" 500))).

Definition publishContent (req : Request) : M Outcome :=
  try_catch
    (let id := req_id req in
     let userId := u_id (req_user req) in
     content <- prisma_content_update env id
                  (mkUpdateData None None None None None None None
                     (Some "published") (Some (now env)) None) ;;
     notificationService_notifyContentPublished env content ;;;
     cacheService_del env ("content:" +:+ id) ;;;
     cacheService_del env "content:list:*" ;;;
     logger_info ("Content published: " +:+ id +:+ " by user " +:+ userId) ;;;
     ret (Json 200 (ok_envelope (DContent content) (Some "Content published successfully") None)))
    (fun error =>
       logger_error "Error publishing content:" error ;;;
       ret (Next (mkAppError "Failed to publish content" 500))).

End Controller.

(** ** The content router *)

Inductive Method : Type := GET | POST | PUT | DELETE.

Definition Method_eqb (a b : Method) : bool :=
  match a, b with
  | GET, GET | POST, POST | PUT, PUT | DELETE, DELETE => true
  | _, _ => false
  end.

(** One segment of a route path: a literal or a named parameter [:name]. *)
Inductive Segment : Type :=
  | Lit (s : string)
  | Par (name : string).

Inductive Middleware : Type :=
  | validateContent
  | checkPermission (capability : string)
  | cacheMiddleware (ttl : Z).

(** A registration [router.METHOD(path, ...middleware, contentController.NAME)];
    the handler is the property name looked up on the controller module. *)
Record Route : Type := mkRoute {
  r_method : Method;
  r_path : list Segment;
  r_middleware : list Middleware;
  r_handler : string
}.

(** The registrations of the content router, in source order. *)
Definition contentRoutes : list Route :=
  [ mkRoute POST [] [validateContent; checkPermission "content:create"] "createContent";
    mkRoute GET [] [cacheMiddleware 300] "getAllContent";
    mkRoute GET [Par "id"] [cacheMiddleware 300] "getContentById";
    mkRoute PUT [Par "id"] [validateContent; checkPermission "content:update"] "updateContent";
    mkRoute DELETE [Par "id"] [checkPermission "content:delete"] "deleteContent";
    mkRoute GET [Lit "search"] [] "searchContent";
    mkRoute POST [Par "id"; Lit "publish"] [checkPermission "content:publish"] "publishContent";
    mkRoute POST [Par "id"; Lit "archive"] [checkPermission "content:archive"] "archiveContent";
    mkRoute GET [Par "id"; Lit "versions"] [] "getVersionHistory";
    mkRoute POST [Par "id"; Lit "restore"; Par "versionId"] [checkPermission "content:update"]
      "restoreVersion";
    mkRoute POST [Par "id"; Lit "duplicate"] [checkPermission "content:create"]
      "duplicateContent";
    mkRoute GET [Par "id"; Lit "analytics"] [] "getContentAnalytics" ].

(** The functions the controller module assigns to [exports]. *)
Inductive Exported : Type :=
  | ExCreateContent
  | ExGetAllContent
  | ExGetContentById
  | ExUpdateContent
  | ExDeleteContent
  | ExSearchContent
  | ExPublishContent
  | ExGetVersionHistory
  | ExGetContentAnalytics.

Definition controller_exports : list (string * Exported) :=
  [ ("createContent", ExCreateContent);
    ("getAllContent", ExGetAllContent);
    ("getContentById", ExGetContentById);
    ("updateContent", ExUpdateContent);
    ("deleteContent", ExDeleteContent);
    ("searchContent", ExSearchContent);
    ("publishContent", ExPublishContent);
    ("getVersionHistory", ExGetVersionHistory);
    ("getContentAnalytics", ExGetContentAnalytics) ].

Fixpoint assoc {A} (k : string) (l : list (string * A)) : option A :=
  match l with
  | [] => None
  | (k', a) :: l' => if String.eqb k k' then Some a else assoc k l'
  end.

(** [contentController.NAME]: [None] is [undefined]. *)
Definition contentController (name : string) : option Exported :=
  assoc name controller_exports.

(** Every registered handler is a function of the controller. *)
Definition handlers_defined (rs : list Route) : bool :=
  forallb (fun r => bool_decide (is_Some (contentController (r_handler r)))) rs.

Definition method_name (m : Method) : string :=
  match m with
  | GET => "get"
  | POST => "post"
  | PUT => "put"
  | DELETE => "delete"
  end.

(** Loading the routes module: Express checks each callback when the route
    is registered and throws on the first one that is not a function. *)
Fixpoint register (rs : list Route) : string + list (Route * Exported) :=
  match rs with
  | [] => inr []
  | r :: rs' =>
      match contentController (r_handler r) with
      | None =>
          inl ("Route." +:+ method_name (r_method r)
               +:+ "() requires a callback function but got a [object Undefined]")
      | Some f =>
          match register rs' with
          | inl e => inl e
          | inr layers => inr ((r, f) :: layers)
          end
      end
  end.

(** *** Path matching *)

Definition lower_ascii (a : ascii) : ascii :=
  let n := nat_of_ascii a in
  if ((65 <=? n) && (n <=? 90))%nat then ascii_of_nat (n + 32) else a.

Fixpoint lower (s : string) : string :=
  match s with
  | EmptyString => EmptyString
  | String a s' => String (lower_ascii a) (lower s')
  end.

(** The pieces of a path between slashes, empty ones included. *)
Fixpoint split_slash (s : string) (cur : string) : list string :=
  match s with
  | EmptyString => [cur]
  | String a s' =>
      if Ascii.eqb a "/"%char then cur :: split_slash s' ""
      else split_slash s' (cur +:+ String a EmptyString)
  end.

Definition drop_trailing_empty (l : list string) : list string :=
  match reverse l with
  | "" :: l' => reverse l'
  | _ => l
  end.

(** The segments of a request path: it starts with a slash, and one
    trailing slash is allowed (routing is not strict). *)
Definition segments (path : string) : option (list string) :=
  match split_slash path "" with
  | "" :: rest => Some (drop_trailing_empty rest)
  | _ => None
  end.

(** A literal matches whatever the case; a parameter takes one segment
    that is not empty. *)
Fixpoint match_path (pat : list Segment) (segs : list string) : option (list (string * string)) :=
  match pat, segs with
  | [], [] => Some []
  | Lit s :: pat', x :: segs' =>
      if String.eqb (lower s) (lower x) then match_path pat' segs' else None
  | Par name :: pat', x :: segs' =>
      if String.eqb x "" then None
      else option_map (cons (name, x)) (match_path pat' segs')
  | _, _ => None
  end.

(** The first registered route that takes the request, with its parameters. *)
Fixpoint first_match (rs : list Route) (m : Method) (segs : list string)
  : option (Route * list (string * string)) :=
  match rs with
  | [] => None
  | r :: rs' =>
      if Method_eqb (r_method r) m then
        match match_path (r_path r) segs with
        | Some ps => Some (r, ps)
        | None => first_match rs' m segs
        end
      else first_match rs' m segs
  end.

Definition dispatch (rs : list Route) (m : Method) (path : string)
  : option (Route * list (string * string)) :=
  match segments path with
  | Some segs => first_match rs m segs
  | None => None
  end.

(** The controller function that answers a request, and the [req.params.id]
    it is given. *)
Definition handled_by (m : Method) (path : string) : option (Exported * option string) :=
  match dispatch contentRoutes m path with
  | Some (r, ps) =>
      match contentController (r_handler r) with
      | Some f => Some (f, assoc "id" ps)
      | None => None
      end
  | None => None
  end.

(** ** Scratch values for evaluation *)

Definition no_faults : Call -> bool := fun _ => false.

Definition empty_world : World := mkWorld ∅ [] [] ∅ ∅ [] [].

Definition empty_query : Query :=
  mkQuery None None None None None None None None None None.

Definition empty_body : Body := mkBody None None None None VUndefined.

Definition quiet_env (fl : Call -> bool) (id : string) : Env :=
  mkEnv fl 1000 id
        (fun _ _ => 0)
        (fun _ _ _ _ _ _ => Some [])
        (fun _ _ => mkSearchResults [] 0)
        (fun _ => None).

(** ** Observations on a run *)

(** The four mutating operations. *)
Inductive Mutation : Type := Create | Update | Delete | Publish.

Definition run_mutation (op : Mutation) (env : Env) : Request -> M Outcome :=
  match op with
  | Create => createContent env
  | Update => updateContent env
  | Delete => deleteContent env
  | Publish => publishContent env
  end.

(** The collaborator calls made between two worlds of one run. *)
Definition calls_since (w w' : World) : list (Call * bool) :=
  drop (length (callRecord w)) (callRecord w').

(** The run wrote to the primary store. *)
Definition wrote (cs : list (Call * bool)) : bool :=
  existsb (fun '(c, ok) => ok && is_store_write c) cs.

Definition same_downstream (a b : Downstream) : bool :=
  match a, b with
  | Analysis, Analysis
  | SearchSync, SearchSync
  | Notification, Notification
  | CacheInvalidation, CacheInvalidation => true
  | _, _ => false
  end.

(** A call to the given downstream collaborator was rejected. *)
Definition failed (d : Downstream) (cs : list (Call * bool)) : bool :=
  existsb (fun '(c, ok) =>
             negb ok && match downstream_of c with
                        | Some d' => same_downstream d d'
                        | None => false
                        end) cs.

(** The caller is told the operation succeeded. *)
Definition is_success (o : Outcome) : bool :=
  match o with
  | Json _ e => success e
  | Next _ => false
  end.

(** The row that updateContent writes over [old]. *)
Definition the_update (env : Env) (req : Request) (old : Content) : Content :=
  apply_update
    (mkUpdateData (b_title (req_body req)) (b_body (req_body req))
       (b_categoryId (req_body req))
       (defined (js_or (b_metadata (req_body req)) (c_metadata old)))
       (Some (c_version old + 1)) (Some (now env)) (b_tags (req_body req))
       None None None)
    old.

Definition with_user (u : User) (req : Request) : Request :=
  mkRequest (req_id req) (req_body req) (req_query req) u (req_ip req).

(** ** Sample requests and worlds *)

Definition author : User := mkUser "u1" "editor".
Definition stranger : User := mkUser "u2" "editor".

Definition item1 : Content :=
  mkContent "c1" "Old title" "Old body" "draft" 3 "u1" None {["news"]}
            (VObj [("lang", VStr "en")]) 10 20 None None.

Definition world1 : World :=
  mkWorld {["c1" := item1]} [] [] {["news"]} {["c1" := item1]} [] [].

Definition post1 : Request :=
  mkRequest "" (mkBody (Some "A") (Some "B") None (Some ["x"; "y"; "x"]) VUndefined)
            empty_query author "10.0.0.1".

Definition put1 : Request :=
  mkRequest "c1" (mkBody (Some "New title") (Some "New body") None None VUndefined)
            empty_query author "10.0.0.1".

Definition by_id (id : string) (u : User) : Request :=
  mkRequest id empty_body empty_query u "10.0.0.1".

Definition list_query (page limit : string) : Request :=
  mkRequest "" empty_body
            (mkQuery (Some page) (Some limit) None None None None None None None None)
            author "10.0.0.1".

(** A request whose query string gives only [limit]. *)
Definition limit_query (limit : string) : Request :=
  mkRequest "" empty_body
            (mkQuery None (Some limit) None None None None None None None None)
            author "10.0.0.1".

(** An environment whose database counts [n] rows and whose search engine
    reports [n] hits in total. *)
Definition counting_env (n : Z) : Env :=
  mkEnv no_faults 1000 "c2"
        (fun _ _ => n)
        (fun _ _ _ _ _ _ => Some [])
        (fun _ _ => mkSearchResults [] n)
        (fun _ => None).

(** The search index rejects every write. *)
Definition search_down : Call -> bool :=
  fun c => match downstream_of c with
           | Some SearchSync => true
           | _ => false
           end.

(** ** Proof automation *)

Ltac unfold_prims :=
  unfold prisma_content_create, prisma_content_findUnique, prisma_content_update,
    prisma_content_count, prisma_content_findMany, prisma_contentVersion_create,
    prisma_contentView_create, mlService_analyzeContent, searchService_indexContent,
    searchService_updateContent, searchService_deleteContent, searchService_search,
    cacheService_del, notificationService_notifyContentPublished, logger_error,
    logger_info, call, try_catch, bind, ret, throw in *.

(** Follow a run in hypothesis [H] through every fault test, row lookup and
    branch, dropping the paths that contradict [H]. *)
Ltac crunch H :=
  cbn in H;
  repeat (match type of H with
          | context [fails ?e ?c] =>
              let F := fresh "F" in destruct (fails e c) eqn:F
          | context [contents ?w !! ?k] =>
              let L := fresh "L" in destruct (contents w !! k) eqn:L
          | context [if ?b then _ else _] =>
              let B := fresh "B" in destruct b eqn:B
          end; cbn in H; try discriminate H;
          repeat match goal with
                 | E : Some _ = Some _ |- _ => inversion E; subst; clear E
                 end).

(** Read the calls of a finished run off its final world. *)
Ltac read_calls :=
  unfold calls_since in *; cbn in *;
  rewrite <- ?app_assoc in *; rewrite ?drop_app_length in *; cbn in *.

(** ** All handlers *)

(** The seven handlers that the controller defines in full here. *)
Inductive Handler : Type :=
  | HCreate | HList | HGet | HUpdate | HDelete | HSearch | HPublish.

Definition run_handler (h : Handler) (env : Env) : Request -> M Outcome :=
  match h with
  | HCreate => createContent env
  | HList => getAllContent env
  | HGet => getContentById env
  | HUpdate => updateContent env
  | HDelete => deleteContent env
  | HSearch => searchContent env
  | HPublish => publishContent env
  end.

(** The answers a handler can give: success with status 200 (201 for a
    create), or an error with status 500, 404 (handlers that look the row
    up first) or 403 (handlers that compare the author). *)
Definition answer_allowed (h : Handler) (o : Outcome) : bool :=
  match o with
  | Json st e =>
      success e && (st =? match h with HCreate => 201 | _ => 200 end)
  | Next err =>
      (err_status err =? 500)
      || (err_status err =? 404)
         && match h with HGet | HUpdate | HDelete => true | _ => false end
      || (err_status err =? 403)
         && match h with HUpdate | HDelete => true | _ => false end
  end.

(** Every row is filed under its own id. *)
Definition store_keyed (w : World) : Prop :=
  forall id c, contents w !! id = Some c -> c_id c = id.

(** The caller may change or delete the row. *)
Definition may_modify (u : User) (c : Content) : bool :=
  String.eqb (c_authorId c) (u_id u) || String.eqb (u_role u) "admin".

(** Follow a run in the goal through every fault test and row lookup. *)
Ltac crunch_goal :=
  cbn;
  repeat (match goal with
          | |- context [fails ?e ?c] =>
              let F := fresh "F" in destruct (fails e c) eqn:F
          | |- context [contents ?w !! ?k] =>
              let L := fresh "L" in destruct (contents w !! k) eqn:L
          | |- context [if ?b then _ else _] =>
              let B := fresh "B" in destruct b eqn:B
          end; cbn).

(** The row that deleteContent writes over [old]. *)
Definition the_delete (env : Env) (old : Content) : Content :=
  apply_update
    (mkUpdateData None None None None None None None (Some "deleted") None (Some (now env)))
    old.

(** The row that publishContent writes over [old]. *)
Definition the_publish (env : Env) (old : Content) : Content :=
  apply_update
    (mkUpdateData None None None None None None None (Some "published") (Some (now env)) None)
    old.

(** How many of the calls went to the given collaborator call. *)
Definition count_calls (p : Call -> bool) (cs : list (Call * bool)) : nat :=
  length (filter (fun x => p x.1 = true) cs).

Definition is_notify (c : Call) : bool :=
  match c with
  | CNotifyPublished _ => true
  | _ => false
  end.

(** An update that gives tags. *)
Definition put_tags : Request :=
  mkRequest "c1" (mkBody (Some "New title") (Some "New body") None (Some ["a"; "b"]) VUndefined)
            empty_query author "10.0.0.1".

(** What no handler changes in a row, and the direction its version moves. *)
Definition same_row_later (c c' : Content) : Prop :=
  c_id c' = c_id c
  /\ c_authorId c' = c_authorId c
  /\ c_createdAt c' = c_createdAt c
  /\ c_version c <= c_version c'.

(** A filter parameter given with no text. *)
Definition drop_empty (o : option string) : option string :=
  match o with
  | Some s => if String.eqb s "" then None else Some s
  | None => None
  end.

(** The query with every filter that has no text left out. *)
Definition without_empty_filters (q : Query) : Query :=
  mkQuery (q_page q) (q_limit q) (drop_empty (q_status q)) (drop_empty (q_categoryId q))
          (drop_empty (q_authorId q)) (q_sortBy q) (q_order q) (drop_empty (q_search q))
          (q_query q) (q_filters q).

Definition with_query (q : Query) (req : Request) : Request :=
  mkRequest (req_id req) (req_body req) q (req_user req) (req_ip req).

(** A search whose [filters] parameter is the given text. *)
Definition filters_query (filters : string) : Request :=
  mkRequest "" empty_body
            (mkQuery None None None None None None None None (Some "news") (Some filters))
            author "10.0.0.1".

(** * Theorems *)

(** ** Update *)

(** A run of updateContent that answers with a JSON body went through the
    whole handler: the row was found, the snapshot appended, the row written. *)
Lemma updateContent_success env req w st e w' :
  updateContent env req w = (Ok (Json st e), w') ->
  exists old,
    contents w !! req_id req = Some old
    /\ st = 200
    /\ e = ok_envelope (DContent (the_update env req old))
             (Some "Content updated successfully") None
    /\ contents w' = <[req_id req := the_update env req old]> (contents w)
    /\ contentVersions w' =
         contentVersions w ++
           [mkContentVersion (req_id req) (c_title old) (c_body old) (c_version old)
              (u_id (req_user req)) (now env)]
    /\ exists rest,
         callRecord w' =
           callRecord w ++
             [(CContentFindUnique (req_id req), true);
              (CVersionCreate (req_id req), true);
              (CContentUpdate (req_id req), true)] ++ rest.
Proof.
  intros H. unfold updateContent in H. unfold_prims.
  crunch H.
  all: inversion H; subst; clear H; exists c; cbn.
  all: unfold the_update; repeat split; try reflexivity.
  all: rewrite <- ?app_assoc; cbn; eexists; reflexivity.
Qed.

(** C2: after a successful update the stored version is the old version
    plus one, and a ContentVersion row holding the old title, body and
    version was appended; the snapshot call comes before the update call. *)
Theorem update_bumps_version_and_snapshots env req w st e w' :
  updateContent env req w = (Ok (Json st e), w') ->
  exists old new,
    contents w !! req_id req = Some old
    /\ contents w' !! req_id req = Some new
    /\ e = ok_envelope (DContent new) (Some "Content updated successfully") None
    /\ c_version new = c_version old + 1
    /\ (exists snapshot,
          contentVersions w' = contentVersions w ++ [snapshot]
          /\ cv_contentId snapshot = req_id req
          /\ cv_title snapshot = c_title old
          /\ cv_body snapshot = c_body old
          /\ cv_version snapshot = c_version old)
    /\ (exists rest,
          calls_since w w' =
            (CContentFindUnique (req_id req), true)
            :: (CVersionCreate (req_id req), true)
            :: (CContentUpdate (req_id req), true) :: rest).
Proof.
  intros H.
  destruct (updateContent_success _ _ _ _ _ _ H)
    as (old & Hold & _ & He & Hc & Hv & rest & Hr).
  exists old, (the_update env req old).
  split; [exact Hold|].
  split; [rewrite Hc; apply lookup_insert_eq|].
  split; [exact He|].
  split; [reflexivity|].
  split.
  - eexists. split; [exact Hv|]. cbn. auto.
  - exists rest. unfold calls_since. rewrite Hr. apply drop_app_length.
Qed.

Lemma update_bumps_version_and_snapshots_witness :
  exists old new,
    contents world1 !! "c1" = Some old
    /\ contents (updateContent (quiet_env no_faults "c2") put1 world1).2 !! "c1" = Some new
    /\ ok_envelope (DContent (the_update (quiet_env no_faults "c2") put1 item1))
         (Some "Content updated successfully") None
       = ok_envelope (DContent new) (Some "Content updated successfully") None
    /\ c_version new = c_version old + 1
    /\ (exists snapshot,
          contentVersions (updateContent (quiet_env no_faults "c2") put1 world1).2
          = contentVersions world1 ++ [snapshot]
          /\ cv_contentId snapshot = "c1"
          /\ cv_title snapshot = c_title old
          /\ cv_body snapshot = c_body old
          /\ cv_version snapshot = c_version old)
    /\ (exists rest,
          calls_since world1 (updateContent (quiet_env no_faults "c2") put1 world1).2 =
            (CContentFindUnique "c1", true)
            :: (CVersionCreate "c1", true)
            :: (CContentUpdate "c1", true) :: rest).
Proof.
  apply (update_bumps_version_and_snapshots (quiet_env no_faults "c2") put1 world1 200).
  vm_compute. reflexivity.
Defined.

(** C10: a successful update that leaves out metadata keeps the stored
    metadata, one that leaves out tags keeps the tag set, and no update
    touches status, publishedAt, deletedAt or createdAt. *)
Theorem update_frame env req w st e w' :
  updateContent env req w = (Ok (Json st e), w') ->
  exists old new,
    contents w !! req_id req = Some old
    /\ contents w' !! req_id req = Some new
    /\ (b_metadata (req_body req) = VUndefined -> c_metadata new = c_metadata old)
    /\ (b_tags (req_body req) = None -> c_tags new = c_tags old)
    /\ c_status new = c_status old
    /\ c_publishedAt new = c_publishedAt old
    /\ c_deletedAt new = c_deletedAt old
    /\ c_createdAt new = c_createdAt old.
Proof.
  intros H.
  destruct (updateContent_success _ _ _ _ _ _ H)
    as (old & Hold & _ & _ & Hc & _).
  exists old, (the_update env req old).
  split; [exact Hold|].
  split; [rewrite Hc; apply lookup_insert_eq|].
  unfold the_update, apply_update; cbn.
  repeat split.
  - intros ->. cbn. destruct (c_metadata old); reflexivity.
  - intros ->. reflexivity.
Qed.

Lemma update_frame_witness :
  exists old new,
    contents world1 !! "c1" = Some old
    /\ contents (updateContent (quiet_env no_faults "c2") put1 world1).2 !! "c1" = Some new
    /\ (VUndefined = VUndefined -> c_metadata new = c_metadata old)
    /\ (@None (list string) = None -> c_tags new = c_tags old)
    /\ c_status new = c_status old
    /\ c_publishedAt new = c_publishedAt old
    /\ c_deletedAt new = c_deletedAt old
    /\ c_createdAt new = c_createdAt old.
Proof.
  apply (update_frame (quiet_env no_faults "c2") put1 world1 200
           (ok_envelope (DContent (the_update (quiet_env no_faults "c2") put1 item1))
              (Some "Content updated successfully") None)).
  vm_compute. reflexivity.
Defined.

(** C4: an update asked by a user who is neither the author of the stored
    item nor an admin is answered with the 403 error; the content table and
    the version table are left as they were. *)
Theorem update_forbidden env req w old :
  fails env (CContentFindUnique (req_id req)) = false ->
  contents w !! req_id req = Some old ->
  c_authorId old <> u_id (req_user req) ->
  u_role (req_user req) <> "admin" ->
  exists w',
    updateContent env req w
      = (Ok (Next (mkAppError "Not authorized to update this content" 403)), w')
    /\ contents w' = contents w
    /\ contentVersions w' = contentVersions w
    /\ tagNames w' = tagNames w
    /\ searchDocs w' = searchDocs w
    /\ calls_since w w' = [(CContentFindUnique (req_id req), true)].
Proof.
  intros F L Ha Hr.
  unfold updateContent. unfold_prims. cbn. rewrite F. cbn. rewrite L.
  apply String.eqb_neq in Ha, Hr. rewrite Ha, Hr. cbn.
  eexists. split; [reflexivity|]. cbn. repeat split.
  unfold calls_since. cbn. apply drop_app_length.
Qed.

Lemma update_forbidden_witness :
  exists w',
    updateContent (quiet_env no_faults "c2") (with_user stranger put1) world1
      = (Ok (Next (mkAppError "Not authorized to update this content" 403)), w')
    /\ contents w' = contents world1
    /\ contentVersions w' = contentVersions world1
    /\ tagNames w' = tagNames world1
    /\ searchDocs w' = searchDocs world1
    /\ calls_since world1 w' = [(CContentFindUnique "c1", true)].
Proof.
  apply (update_forbidden (quiet_env no_faults "c2") (with_user stranger put1) world1 item1).
  - reflexivity.
  - vm_compute. reflexivity.
  - vm_compute. discriminate.
  - vm_compute. discriminate.
Defined.

(** ** Create *)



(** ** Delete *)

(** C6: after a successful delete the row is still in the content table,
    with status deleted and deletedAt set; no row has left the table; and
    the search index holds no document under the id. *)
Theorem delete_is_soft_and_unindexes env req w st e w' :
  deleteContent env req w = (Ok (Json st e), w') ->
  exists old new,
    contents w !! req_id req = Some old
    /\ contents w' !! req_id req = Some new
    /\ c_status new = "deleted"
    /\ c_deletedAt new = Some (now env)
    /\ dom (contents w') = dom (contents w)
    /\ searchDocs w' !! req_id req = None
    /\ searchDocs w' = delete (req_id req) (searchDocs w).
Proof.
  intros H. unfold deleteContent in H. unfold_prims.
  crunch H.
  all: inversion H; subst; clear H; eexists c, _; cbn.
  all: split; [reflexivity|].
  all: split; [apply lookup_insert_eq|].
  all: split; [reflexivity|]; split; [reflexivity|].
  all: split; [apply set_eq; intros x; rewrite dom_insert, elem_of_union, elem_of_singleton;
               split; [intros [->|]; [apply elem_of_dom; eauto|assumption]|auto]|].
  all: split; [apply lookup_delete_eq|reflexivity].
Qed.

Lemma delete_is_soft_and_unindexes_witness :
  exists old new,
    contents world1 !! "c1" = Some old
    /\ contents (deleteContent (quiet_env no_faults "c2") (by_id "c1" author) world1).2 !! "c1"
       = Some new
    /\ c_status new = "deleted"
    /\ c_deletedAt new = Some 1000
    /\ dom (contents (deleteContent (quiet_env no_faults "c2") (by_id "c1" author) world1).2)
       = dom (contents world1)
    /\ searchDocs (deleteContent (quiet_env no_faults "c2") (by_id "c1" author) world1).2 !! "c1"
       = None
    /\ searchDocs (deleteContent (quiet_env no_faults "c2") (by_id "c1" author) world1).2
       = delete "c1" (searchDocs world1).
Proof.
  apply (delete_is_soft_and_unindexes (quiet_env no_faults "c2") (by_id "c1" author) world1 200
           (ok_envelope DNone (Some "Content deleted successfully") None)).
  vm_compute. reflexivity.
Defined.

(** ** Publish *)

(** C9: publishContent looks nothing up and compares no owner: it makes no
    findUnique call, its answer does not depend on who asks, it never
    answers 403 or 404, and on an id with no row it answers the generic
    failure with status 500. *)
Theorem publish_has_no_existence_or_ownership_check env req w :
  exists out w',
    publishContent env req w = (Ok out, w')
    /\ (forall msg, out <> Next (mkAppError msg 403))
    /\ (forall msg, out <> Next (mkAppError msg 404))
    /\ (forall id ok, (CContentFindUnique id, ok) ∉ calls_since w w')
    /\ (forall u, (publishContent env (with_user u req) w).1 = Ok out)
    /\ (contents w !! req_id req = None ->
        out = Next (mkAppError "Failed to publish content" 500)
        /\ contents w' = contents w).
Proof.
  unfold calls_since, publishContent. unfold_prims. cbn.
  repeat (match goal with
          | |- context [fails ?e ?c] => destruct (fails e c) eqn:?
          | |- context [contents ?w0 !! ?k] => destruct (contents w0 !! k) eqn:?
          end; cbn).
  all: do 2 eexists; split; [reflexivity|]; cbn.
  all: split; [intros msg; discriminate|].
  all: split; [intros msg; discriminate|].
  all: split; [intros id ok Hin; rewrite <- ?app_assoc, drop_app_length in Hin; cbn in Hin;
               repeat (apply elem_of_cons in Hin; destruct Hin as [Hin|Hin];
                       [discriminate Hin|]);
               apply elem_of_nil in Hin; exact Hin|].
  all: split; [intros u; reflexivity|].
  all: intros Hnone; try discriminate Hnone; split; reflexivity.
Qed.

Lemma publish_has_no_existence_or_ownership_check_witness :
  (publishContent (quiet_env no_faults "c2") (by_id "missing" stranger) world1).1
    = Ok (Next (mkAppError "Failed to publish content" 500))
  /\ exists out,
       (publishContent (quiet_env no_faults "c2") (by_id "c1" stranger) world1).1 = Ok out
       /\ is_success out = true.
Proof.
  destruct (publish_has_no_existence_or_ownership_check
              (quiet_env no_faults "c2") (by_id "missing" stranger) world1)
    as (out & w' & Hrun & _ & _ & _ & _ & Hmissing).
  split.
  - rewrite Hrun. cbn. f_equal. apply Hmissing. vm_compute. reflexivity.
  - eexists. split; vm_compute; reflexivity.
Defined.

(** ** Pagination *)

(** C7 fails on the controller: the limit it reports is parseInt(limit),
    while pages divides the total by the limit as given.  Asked for
    limit=10.5 over 21 items, the list and the search both answer limit 10,
    total 21, pages 2, and 2 is not the ceiling of 21 over 10. *)
Theorem pagination_pages_not_ceiling_of_reported_limit :
  (exists e w',
     getAllContent (counting_env 21) (limit_query "10.5") empty_world
       = (Ok (Json 200 e), w')
     /\ pagination e = Some (mkPagination (Num 1) (Num 10) 21 (Num 2)))
  /\ (exists e w',
        searchContent (counting_env 21) (limit_query "10.5") empty_world
          = (Ok (Json 200 e), w')
        /\ pagination e = Some (mkPagination (Num 1) (Num 10) 21 (Num 2)))
  /\ ~ (10 * (2 - 1) < 21 <= 10 * 2).
Proof.
  split; [do 2 eexists; split; vm_compute; reflexivity|].
  split; [do 2 eexists; split; vm_compute; reflexivity|].
  lia.
Qed.

(** ** Downstream failures *)

Lemma last_app_nonempty {A} (l : list A) x k : last (l ++ x :: k) = last (x :: k).
Proof.
  induction l as [|y l IH]; [reflexivity|].
  cbn [app]. destruct (l ++ x :: k) eqn:E; [destruct l; discriminate E|exact IH].
Qed.

(** C1, as the controller has it: once the store write of a mutation has
    gone through, the caller is told of success exactly when no call to the
    search index, the notifier or the cache was rejected.  A rejected
    analysis call never changes the answer and is logged; a rejected search,
    notification or cache call is logged and answered with a 500 error. *)
Theorem downstream_failure_effects op env req w out w' :
  run_mutation op env req w = (Ok out, w') ->
  wrote (calls_since w w') = true ->
  (is_success out = true <->
     failed SearchSync (calls_since w w') = false
     /\ failed Notification (calls_since w w') = false
     /\ failed CacheInvalidation (calls_since w w') = false)
  /\ (failed Analysis (calls_since w w') = true ->
      exists c, In (LogError "Error analyzing content:" (DependencyError c)) (logged w'))
  /\ (is_success out = false ->
      exists msg lmsg c d,
        out = Next (mkAppError msg 500)
        /\ last (logged w') = Some (LogError lmsg (DependencyError c))
        /\ In (c, false) (calls_since w w')
        /\ downstream_of c = Some d
        /\ d <> Analysis).
Proof.
  intros H Hw.
  destruct op; cbn in H;
    [unfold createContent in H | unfold updateContent in H
    | unfold deleteContent in H | unfold publishContent in H];
    unfold_prims; cbn in H.
  1: destruct (fails env CContentCreate) eqn:F0; cbn in H;
     [|destruct (b_title (req_body req)); cbn in H;
       [destruct (b_body (req_body req)); cbn in H|]].
  all: crunch H.
  all: inversion H; subst out w'; clear H.
  all: read_calls; try discriminate Hw.
  all: split; [split; [intros; try discriminate; auto | intros (? & ? & ?); try discriminate; auto]|].
  all: split; [intros Ha; try discriminate Ha; eexists; rewrite ?in_app_iff; cbn; eauto 10|].
  all: intros Hs; try discriminate Hs.
  all: do 4 eexists; split; [reflexivity|].
  all: split; [rewrite last_app_nonempty; reflexivity|].
  all: split; [cbn; eauto 12|].
  all: split; [reflexivity|discriminate].
Qed.

Lemma downstream_failure_effects_witness :
  (is_success (Next (mkAppError "Failed to update content" 500)) = true <->
     failed SearchSync
       (calls_since world1 (updateContent (quiet_env search_down "c2") put1 world1).2) = false
     /\ failed Notification
          (calls_since world1 (updateContent (quiet_env search_down "c2") put1 world1).2) = false
     /\ failed CacheInvalidation
          (calls_since world1 (updateContent (quiet_env search_down "c2") put1 world1).2) = false)
  /\ (failed Analysis
        (calls_since world1 (updateContent (quiet_env search_down "c2") put1 world1).2) = true ->
      exists c,
        In (LogError "Error analyzing content:" (DependencyError c))
           (logged (updateContent (quiet_env search_down "c2") put1 world1).2))
  /\ (is_success (Next (mkAppError "Failed to update content" 500)) = false ->
      exists msg lmsg c d,
        Next (mkAppError "Failed to update content" 500) = Next (mkAppError msg 500)
        /\ last (logged (updateContent (quiet_env search_down "c2") put1 world1).2)
           = Some (LogError lmsg (DependencyError c))
        /\ In (c, false)
              (calls_since world1 (updateContent (quiet_env search_down "c2") put1 world1).2)
        /\ downstream_of c = Some d
        /\ d <> Analysis).
Proof.
  apply (downstream_failure_effects Update (quiet_env search_down "c2") put1 world1).
  - vm_compute. reflexivity.
  - vm_compute. reflexivity.
Defined.

(** C1 as the spec words it fails: with the search index down, the update
    is written to the store and the caller is still answered with the 500
    error. *)
Lemma downstream_failure_fails_update :
  wrote (calls_since world1 (updateContent (quiet_env search_down "c2") put1 world1).2) = true
  /\ c_version <$> contents (updateContent (quiet_env search_down "c2") put1 world1).2 !! "c1"
     = Some 4
  /\ failed SearchSync
       (calls_since world1 (updateContent (quiet_env search_down "c2") put1 world1).2) = true
  /\ (updateContent (quiet_env search_down "c2") put1 world1).1
     = Ok (Next (mkAppError "Failed to update content" 500))
  /\ ~ (forall out,
          (updateContent (quiet_env search_down "c2") put1 world1).1 = Ok out ->
          is_success out = true).
Proof.
  repeat split; try (vm_compute; reflexivity).
  intros Hall.
  specialize (Hall (Next (mkAppError "Failed to update content" 500))).
  discriminate Hall. vm_compute. reflexivity.
Qed.

(** ** Routing *)

(** C8 fails on the router: the archive, restore and duplicate routes name
    controller properties that the controller does not export, so they are
    undefined, and registering the routes throws at the archive route. *)
Theorem router_registers_undefined_handlers :
  handlers_defined contentRoutes = false
  /\ contentController "archiveContent" = None
  /\ contentController "restoreVersion" = None
  /\ contentController "duplicateContent" = None
  /\ map r_handler
       (filter (fun r => contentController (r_handler r) = None) contentRoutes)
     = ["archiveContent"; "restoreVersion"; "duplicateContent"]
  /\ register contentRoutes
     = inl "Route.post() requires a callback function but got a [object Undefined]".
Proof. repeat split; vm_compute; reflexivity. Qed.

Lemma first_match_sound rs m segs r ps :
  first_match rs m segs = Some (r, ps) ->
  In r rs /\ Method_eqb (r_method r) m = true /\ match_path (r_path r) segs = Some ps.
Proof.
  induction rs as [|r0 rs IH]; cbn; [discriminate|].
  destruct (Method_eqb (r_method r0) m) eqn:Em.
  - destruct (match_path (r_path r0) segs) as [ps0|] eqn:Ep.
    + intros E. inversion E; subst. auto.
    + intros E. destruct (IH E) as (? & ? & ?). auto.
  - intros E. destruct (IH E) as (? & ? & ?). auto.
Qed.

(** A route that takes the request hides every route registered after it. *)
Lemma first_match_stops pre r0 post m segs ps0 r ps :
  Method_eqb (r_method r0) m = true ->
  match_path (r_path r0) segs = Some ps0 ->
  first_match (pre ++ r0 :: post) m segs = Some (r, ps) ->
  In r (pre ++ [r0]).
Proof.
  intros Em Ep. induction pre as [|p pre IH]; cbn.
  - rewrite Em, Ep. intros E. inversion E. auto.
  - destruct (Method_eqb (r_method p) m).
    + destruct (match_path (r_path p) segs).
      * intros E. inversion E. auto.
      * intros E. right. apply IH, E.
    + intros E. right. apply IH, E.
Qed.

Lemma lower_nonempty x : lower x = "search" -> x <> "".
Proof. intros E ->. discriminate E. Qed.

(** Whatever the literal route /search takes, the parameter route /:id takes. *)
Lemma search_segment_is_an_id segs ps :
  match_path [Lit "search"] segs = Some ps ->
  exists ps', match_path [Par "id"] segs = Some ps'.
Proof.
  destruct segs as [|x [|y segs]]; cbn [match_path]; try discriminate.
  - destruct (String.eqb_spec (lower "search") (lower x)) as [E|_]; [|discriminate].
    intros _. destruct (String.eqb_spec x "") as [->|_]; [discriminate E|].
    eexists. reflexivity.
  - destruct (String.eqb (lower "search") (lower x)); discriminate.
Qed.

Lemma first_match_never_search m segs r ps :
  first_match contentRoutes m segs = Some (r, ps) -> r_handler r <> "searchContent".
Proof.
  intros E Hh.
  destruct (first_match_sound _ _ _ _ _ E) as (Hin & Hm & Hp).
  assert (r_method r = GET /\ r_path r = [Lit "search"]) as [Hg Hl].
  { unfold contentRoutes in Hin. cbn in Hin.
    repeat (destruct Hin as [<-|Hin]; [first [discriminate Hh | split; reflexivity]|]).
    destruct Hin. }
  rewrite Hg in Hm. rewrite Hl in Hp.
  destruct m; try discriminate Hm.
  destruct (search_segment_is_an_id _ _ Hp) as (ps' & Hid).
  pose proof (first_match_stops
                [mkRoute POST [] [validateContent; checkPermission "content:create"]
                   "createContent";
                 mkRoute GET [] [cacheMiddleware 300] "getAllContent"]
                (mkRoute GET [Par "id"] [cacheMiddleware 300] "getContentById")
                _ GET segs ps' r ps eq_refl Hid E) as Hfirst.
  cbn in Hfirst.
  repeat (destruct Hfirst as [<-|Hfirst]; [discriminate Hh|]).
  destruct Hfirst.
Qed.

(** C3 fails on the router: a GET of /search is taken by the /:id route,
    registered before /search, and answered by getContentById with the id
    "search"; no request at all is dispatched to searchContent. *)
Theorem search_route_is_shadowed :
  handled_by GET "/search" = Some (ExGetContentById, Some "search")
  /\ (exists r ps,
        dispatch contentRoutes GET "/search" = Some (r, ps)
        /\ r_path r = [Par "id"]
        /\ r_handler r = "getContentById"
        /\ ps = [("id", "search")])
  /\ (getContentById (quiet_env no_faults "c2") (by_id "search" author) world1).1
     = Ok (Next (mkAppError "Content not found" 404))
  /\ (forall m path r ps,
        dispatch contentRoutes m path = Some (r, ps) -> r_handler r <> "searchContent").
Proof.
  split; [vm_compute; reflexivity|].
  split; [do 2 eexists; vm_compute; repeat split; reflexivity|].
  split; [vm_compute; reflexivity|].
  intros m path r ps. unfold dispatch.
  destruct (segments path); [apply first_match_never_search|discriminate].
Qed.

(** * Further properties of the controller *)

(** Every handler answers every request, in every world and whatever
    fails: with a success body (status 201 for a create, 200 otherwise) or
    with an error of status 500, 404 or 403; 404 comes only from the
    handlers that look the row up, 403 only from update and delete. *)
Theorem handlers_always_answer h env req w :
  exists out w',
    run_handler h env req w = (Ok out, w') /\ answer_allowed h out = true.
Proof.
  destruct h; cbn [run_handler].
  - unfold createContent. unfold_prims. cbn.
    destruct (fails env CContentCreate); cbn; [eauto|].
    destruct (b_title (req_body req)); cbn; [|eauto].
    destruct (b_body (req_body req)); cbn; [|eauto].
    crunch_goal; eauto.
  - unfold getAllContent. unfold_prims.
    destruct (fails env CContentCount); [eauto|].
    destruct (fails env CContentFindMany); [eauto|].
    destruct (db_findMany _ _ _ _ _ _ _); eauto.
  - unfold getContentById. unfold_prims. crunch_goal; eauto.
  - unfold updateContent. unfold_prims. crunch_goal; eauto.
  - unfold deleteContent. unfold_prims. crunch_goal; eauto.
  - unfold searchContent. unfold_prims.
    destruct (q_filters (req_query req)) as [s|].
    + destruct (negb (s =? "")%string).
      * destruct (JSON_parse env s); [|eauto].
        destruct (fails env CSearchQuery); eauto.
      * destruct (fails env CSearchQuery); eauto.
    + destruct (fails env CSearchQuery); eauto.
  - unfold publishContent. unfold_prims. crunch_goal; eauto.
Qed.

(** No mutation calls a downstream collaborator before its store write has
    gone through: a run without a successful content write fails, leaves
    the content table, the tag dictionary and the search index as they
    were, and has made no analysis, search, notification or cache call. *)
Theorem no_downstream_call_without_store_write op env req w out w' :
  run_mutation op env req w = (Ok out, w') ->
  wrote (calls_since w w') = false ->
  is_success out = false
  /\ contents w' = contents w
  /\ tagNames w' = tagNames w
  /\ searchDocs w' = searchDocs w
  /\ (forall c ok, In (c, ok) (calls_since w w') -> downstream_of c = None).
Proof.
  intros H Hw.
  destruct op; cbn in H;
    [unfold createContent in H | unfold updateContent in H
    | unfold deleteContent in H | unfold publishContent in H];
    unfold_prims; cbn in H.
  1: destruct (fails env CContentCreate) eqn:F0; cbn in H;
     [|destruct (b_title (req_body req)); cbn in H;
       [destruct (b_body (req_body req)); cbn in H|]].
  all: crunch H.
  all: inversion H; subst out w'; clear H.
  all: read_calls; try discriminate Hw.
  all: repeat split.
  all: intros c0 ok Hin; repeat (destruct Hin as [Hin|Hin]; [inversion Hin; reflexivity|]);
       destruct Hin.
Qed.

Lemma no_downstream_call_without_store_write_witness :
  is_success (Next (mkAppError "Failed to publish content" 500)) = false
  /\ contents (publishContent (quiet_env no_faults "c2") (by_id "missing" author) world1).2
     = contents world1
  /\ tagNames (publishContent (quiet_env no_faults "c2") (by_id "missing" author) world1).2
     = tagNames world1
  /\ searchDocs (publishContent (quiet_env no_faults "c2") (by_id "missing" author) world1).2
     = searchDocs world1
  /\ (forall c ok,
        In (c, ok)
           (calls_since world1
              (publishContent (quiet_env no_faults "c2") (by_id "missing" author) world1).2)
        -> downstream_of c = None).
Proof.
  apply (no_downstream_call_without_store_write Publish (quiet_env no_faults "c2")
           (by_id "missing" author) world1).
  - vm_compute. reflexivity.
  - vm_compute. reflexivity.
Defined.

(** In a successful mutation the content write comes before every
    downstream call, every call after it is a downstream call, and the
    invalidation of the list cache is the last call of all; update, delete
    and publish invalidate the item's own key just before it. *)
Theorem store_write_first_cache_invalidation_last op env req w out w' :
  run_mutation op env req w = (Ok out, w') ->
  is_success out = true ->
  (exists pre c post,
     calls_since w w' = pre ++ (c, true) :: post
     /\ is_store_write c = true
     /\ (forall x, In x pre -> downstream_of x.1 = None)
     /\ (forall x, In x post -> downstream_of x.1 <> None))
  /\ last (calls_since w w') = Some (CCacheDel "content:list:*", true)
  /\ (op <> Create ->
      exists pre,
        calls_since w w' =
          pre ++ [(CCacheDel ("content:" +:+ req_id req), true);
                  (CCacheDel "content:list:*", true)]).
Proof.
  intros H Hs.
  destruct op; cbn in H;
    [unfold createContent in H | unfold updateContent in H
    | unfold deleteContent in H | unfold publishContent in H];
    unfold_prims; cbn in H.
  1: destruct (fails env CContentCreate) eqn:F0; cbn in H;
     [|destruct (b_title (req_body req)); cbn in H;
       [destruct (b_body (req_body req)); cbn in H|]].
  all: crunch H.
  all: inversion H; subst out w'; clear H; try discriminate Hs.
  all: read_calls.
  all: split; [|split; [reflexivity|]].
  (* create *)
  1,3: exists [], CContentCreate; eexists; split; [reflexivity|]; split; [reflexivity|];
       split; [intros x []|];
       intros x Hin; cbn in Hin;
       repeat (destruct Hin as [<-|Hin]; [discriminate|]); destruct Hin.
  1,2: intros Hne; congruence.
  (* update *)
  1,3: exists [(CContentFindUnique (req_id req), true); (CVersionCreate (req_id req), true)],
         (CContentUpdate (req_id req)); eexists;
       split; [reflexivity|]; split; [reflexivity|];
       split; [intros x Hin; cbn in Hin;
               repeat (destruct Hin as [<-|Hin]; [reflexivity|]); destruct Hin|];
       intros x Hin; cbn in Hin;
       repeat (destruct Hin as [<-|Hin]; [discriminate|]); destruct Hin.
  1,2: intros _; eexists [_; _; _; _; _]; reflexivity.
  (* delete *)
  1: exists [(CContentFindUnique (req_id req), true)], (CContentUpdate (req_id req)); eexists;
     split; [reflexivity|]; split; [reflexivity|];
     split; [intros x Hin; cbn in Hin;
             repeat (destruct Hin as [<-|Hin]; [reflexivity|]); destruct Hin|];
     intros x Hin; cbn in Hin;
     repeat (destruct Hin as [<-|Hin]; [discriminate|]); destruct Hin.
  1: intros _; eexists [_; _; _]; reflexivity.
  (* publish *)
  1: exists [], (CContentUpdate (req_id req)); eexists;
     split; [reflexivity|]; split; [reflexivity|];
     split; [intros x []|];
     intros x Hin; cbn in Hin;
     repeat (destruct Hin as [<-|Hin]; [discriminate|]); destruct Hin.
  intros _; eexists [_; _]; reflexivity.
Qed.

Lemma store_write_first_cache_invalidation_last_witness :
  last (calls_since world1 (deleteContent (quiet_env no_faults "c2") (by_id "c1" author) world1).2)
  = Some (CCacheDel "content:list:*", true).
Proof.
  apply (store_write_first_cache_invalidation_last Delete (quiet_env no_faults "c2")
           (by_id "c1" author) world1
           (Json 200 (ok_envelope DNone (Some "Content deleted successfully") None))).
  - vm_compute. reflexivity.
  - reflexivity.
Defined.

(** The snapshot and the update are two separate writes: when the update
    is rejected after the snapshot went through, the caller gets the 500
    error, the row is as it was, and the version history has gained a
    snapshot of it all the same. *)
Theorem rejected_update_leaves_its_snapshot env req w old :
  fails env (CContentFindUnique (req_id req)) = false ->
  contents w !! req_id req = Some old ->
  may_modify (req_user req) old = true ->
  fails env (CVersionCreate (req_id req)) = false ->
  fails env (CContentUpdate (req_id req)) = true ->
  exists w',
    updateContent env req w = (Ok (Next (mkAppError "Failed to update content" 500)), w')
    /\ contents w' = contents w
    /\ contentVersions w' =
         contentVersions w ++
           [mkContentVersion (req_id req) (c_title old) (c_body old) (c_version old)
              (u_id (req_user req)) (now env)]
    /\ last (logged w') =
         Some (LogError "Error updating content:" (StoreError (CContentUpdate (req_id req)))).
Proof.
  intros F L Hm Fv Fu. unfold may_modify in Hm.
  unfold updateContent. unfold_prims. cbn. rewrite F. cbn. rewrite L.
  destruct (c_authorId old =? u_id (req_user req))%string;
    destruct (u_role (req_user req) =? "admin")%string; try discriminate Hm.
  all: cbn; rewrite Fv; cbn; rewrite Fu; cbn.
  all: eexists; split; [reflexivity|]; cbn; repeat split.
  all: apply last_snoc.
Qed.

Lemma rejected_update_leaves_its_snapshot_witness :
  exists w',
    updateContent (quiet_env (fun c => bool_decide (c = CContentUpdate "c1")) "c2") put1 world1
      = (Ok (Next (mkAppError "Failed to update content" 500)), w')
    /\ contents w' = contents world1
    /\ contentVersions w' =
         contentVersions world1 ++
           [mkContentVersion "c1" "Old title" "Old body" 3 "u1" 1000]
    /\ last (logged w') =
         Some (LogError "Error updating content:" (StoreError (CContentUpdate "c1"))).
Proof.
  apply (rejected_update_leaves_its_snapshot
           (quiet_env (fun c => bool_decide (c = CContentUpdate "c1")) "c2") put1 world1 item1).
  all: vm_compute; reflexivity.
Defined.

(** With every collaborator working, an update or a delete of an existing
    row succeeds exactly when the caller is its author or has the admin
    role; any other caller gets the 403 error. *)
Theorem modify_succeeds_iff_author_or_admin op env req w old :
  op = Update \/ op = Delete ->
  (forall c, fails env c = false) ->
  contents w !! req_id req = Some old ->
  exists out w',
    run_mutation op env req w = (Ok out, w')
    /\ (is_success out = true <-> may_modify (req_user req) old = true)
    /\ (may_modify (req_user req) old = false ->
        exists msg, out = Next (mkAppError msg 403)).
Proof.
  intros Hop F L. unfold may_modify.
  destruct Hop as [-> | ->]; cbn [run_mutation];
    [unfold updateContent | unfold deleteContent]; unfold_prims; cbn;
    rewrite !F; cbn; rewrite L.
  all: destruct (c_authorId old =? u_id (req_user req))%string;
    destruct (u_role (req_user req) =? "admin")%string; cbn; rewrite ?F; cbn;
    rewrite ?L; cbn; rewrite ?F; cbn.
  all: do 2 eexists; split; [reflexivity|]; cbn; split; [split; congruence|].
  all: intros Hf; try discriminate Hf; eauto.
Qed.

Lemma modify_succeeds_iff_author_or_admin_witness :
  exists out w',
    deleteContent (quiet_env no_faults "c2") (by_id "c1" (mkUser "u9" "admin")) world1
      = (Ok out, w')
    /\ (is_success out = true <-> may_modify (mkUser "u9" "admin") item1 = true)
    /\ (may_modify (mkUser "u9" "admin") item1 = false ->
        exists msg, out = Next (mkAppError msg 403)).
Proof.
  apply (modify_succeeds_iff_author_or_admin Delete (quiet_env no_faults "c2")
           (by_id "c1" (mkUser "u9" "admin")) world1 item1).
  - right. reflexivity.
  - intros c. reflexivity.
  - vm_compute. reflexivity.
Defined.

(** A read, an update or a delete of an id that has no row answers the 404
    error after the one lookup: no table, no index entry and no log line
    is touched. *)
Theorem missing_row_is_not_found h env req w :
  h = HGet \/ h = HUpdate \/ h = HDelete ->
  fails env (CContentFindUnique (req_id req)) = false ->
  contents w !! req_id req = None ->
  exists w',
    run_handler h env req w = (Ok (Next (mkAppError "Content not found" 404)), w')
    /\ contents w' = contents w
    /\ contentVersions w' = contentVersions w
    /\ contentViews w' = contentViews w
    /\ tagNames w' = tagNames w
    /\ searchDocs w' = searchDocs w
    /\ logged w' = logged w
    /\ calls_since w w' = [(CContentFindUnique (req_id req), true)].
Proof.
  intros Hh F L.
  destruct Hh as [-> | [-> | ->]]; cbn [run_handler];
    [unfold getContentById | unfold updateContent | unfold deleteContent];
    unfold_prims; cbn; rewrite F; cbn; rewrite L.
  all: eexists; split; [reflexivity|]; cbn; repeat split.
  all: unfold calls_since; cbn; apply drop_app_length.
Qed.

Lemma missing_row_is_not_found_witness :
  exists w',
    getContentById (quiet_env no_faults "c2") (by_id "nope" stranger) world1
      = (Ok (Next (mkAppError "Content not found" 404)), w')
    /\ contents w' = contents world1
    /\ contentVersions w' = contentVersions world1
    /\ contentViews w' = contentViews world1
    /\ tagNames w' = tagNames world1
    /\ searchDocs w' = searchDocs world1
    /\ logged w' = logged world1
    /\ calls_since world1 w' = [(CContentFindUnique "nope", true)].
Proof.
  apply (missing_row_is_not_found HGet (quiet_env no_faults "c2") (by_id "nope" stranger) world1).
  - left. reflexivity.
  - reflexivity.
  - vm_compute. reflexivity.
Defined.

(** ** Frames of the mutations *)

Lemma updateContent_success_world env req w st e w' :
  updateContent env req w = (Ok (Json st e), w') ->
  exists old,
    contents w !! req_id req = Some old
    /\ may_modify (req_user req) old = true
    /\ contents w' = <[req_id req := the_update env req old]> (contents w)
    /\ tagNames w' = tagNames w ∪ from_option list_to_set ∅ (b_tags (req_body req))
    /\ searchDocs w' = <[c_id old := the_update env req old]> (searchDocs w)
    /\ contentViews w' = contentViews w.
Proof.
  intros H. unfold updateContent in H. unfold_prims.
  crunch H.
  all: inversion H; subst; clear H; exists c; cbn.
  all: unfold the_update, may_modify; repeat split; try reflexivity.
  all: apply andb_false_iff in B; destruct B as [B|B]; apply negb_false_iff in B;
       rewrite B; auto using orb_true_r.
Qed.

Lemma deleteContent_success_world env req w st e w' :
  deleteContent env req w = (Ok (Json st e), w') ->
  exists old,
    contents w !! req_id req = Some old
    /\ may_modify (req_user req) old = true
    /\ contents w' = <[req_id req := the_delete env old]> (contents w)
    /\ tagNames w' = tagNames w
    /\ contentVersions w' = contentVersions w
    /\ contentViews w' = contentViews w
    /\ searchDocs w' = delete (req_id req) (searchDocs w).
Proof.
  intros H. unfold deleteContent in H. unfold_prims.
  crunch H.
  all: inversion H; subst; clear H; exists c; cbn.
  all: unfold the_delete, may_modify; repeat split; try reflexivity.
  all: try apply union_empty_r_L.
  all: apply andb_false_iff in B; destruct B as [B|B]; apply negb_false_iff in B;
       rewrite B; auto using orb_true_r.
Qed.

Lemma publishContent_success_world env req w st e w' :
  publishContent env req w = (Ok (Json st e), w') ->
  exists old,
    contents w !! req_id req = Some old
    /\ e = ok_envelope (DContent (the_publish env old))
             (Some "Content published successfully") None
    /\ contents w' = <[req_id req := the_publish env old]> (contents w)
    /\ calls_since w w' =
         [(CContentUpdate (req_id req), true);
          (CNotifyPublished (c_id old), true);
          (CCacheDel ("content:" +:+ req_id req), true);
          (CCacheDel "content:list:*", true)].
Proof.
  intros H. unfold publishContent in H. unfold_prims.
  crunch H.
  inversion H; subst; clear H; exists c; cbn.
  unfold the_publish; repeat split; try reflexivity.
  read_calls. reflexivity.
Qed.

(** Tags given to an update replace the item's tags, they are not merged
    into them: afterwards the item has exactly the names given.  The tag
    dictionary only grows, so a name the item lost stays in the dictionary. *)
Theorem update_replaces_tags env req w st e w' ts :
  updateContent env req w = (Ok (Json st e), w') ->
  b_tags (req_body req) = Some ts ->
  exists old new,
    contents w !! req_id req = Some old
    /\ contents w' !! req_id req = Some new
    /\ (forall t, t ∈ c_tags new <-> t ∈ ts)
    /\ (forall t, t ∈ c_tags old -> t ∉ ts -> t ∉ c_tags new)
    /\ (forall t, t ∈ tagNames w' <-> t ∈ tagNames w \/ t ∈ ts).
Proof.
  intros H Ht.
  destruct (updateContent_success_world _ _ _ _ _ _ H)
    as (old & Hold & _ & Hc & Htags & _).
  exists old, (the_update env req old).
  split; [exact Hold|].
  split; [rewrite Hc; apply lookup_insert_eq|].
  unfold the_update, apply_update; cbn. rewrite Ht in *. cbn in Htags.
  split; [intros t; apply elem_of_list_to_set|].
  split; [intros t _ Hn Hin; apply Hn; apply elem_of_list_to_set in Hin; exact Hin|].
  intros t. rewrite Htags, elem_of_union, elem_of_list_to_set. reflexivity.
Qed.

Lemma update_replaces_tags_witness :
  exists old new,
    contents world1 !! "c1" = Some old
    /\ contents (updateContent (quiet_env no_faults "c2") put_tags world1).2 !! "c1" = Some new
    /\ (forall t, t ∈ c_tags new <-> t ∈ ["a"; "b"])
    /\ (forall t, t ∈ c_tags old -> t ∉ ["a"; "b"] -> t ∉ c_tags new)
    /\ (forall t, t ∈ tagNames (updateContent (quiet_env no_faults "c2") put_tags world1).2
                  <-> t ∈ tagNames world1 \/ t ∈ ["a"; "b"]).
Proof.
  apply (update_replaces_tags (quiet_env no_faults "c2") put_tags world1 200
           (ok_envelope (DContent (the_update (quiet_env no_faults "c2") put_tags item1))
              (Some "Content updated successfully") None)).
  - vm_compute. reflexivity.
  - reflexivity.
Defined.

(** A successful update writes one row: every other row is as it was, no
    row is added, and the row keeps its id and its author.  A title, body
    or category left out of the request is kept; one that is given is
    stored; updatedAt becomes the time of the request. *)
Theorem update_writes_one_row env req w st e w' :
  updateContent env req w = (Ok (Json st e), w') ->
  exists old new,
    contents w !! req_id req = Some old
    /\ contents w' !! req_id req = Some new
    /\ (forall id, id <> req_id req -> contents w' !! id = contents w !! id)
    /\ dom (contents w') = dom (contents w)
    /\ c_id new = c_id old
    /\ c_authorId new = c_authorId old
    /\ c_title new = default (c_title old) (b_title (req_body req))
    /\ c_body new = default (c_body old) (b_body (req_body req))
    /\ (b_categoryId (req_body req) = None -> c_categoryId new = c_categoryId old)
    /\ (forall k, b_categoryId (req_body req) = Some k -> c_categoryId new = Some k)
    /\ c_updatedAt new = now env.
Proof.
  intros H.
  destruct (updateContent_success_world _ _ _ _ _ _ H) as (old & Hold & _ & Hc & _).
  exists old, (the_update env req old).
  split; [exact Hold|].
  split; [rewrite Hc; apply lookup_insert_eq|].
  split; [intros id Hne; rewrite Hc; apply lookup_insert_ne; congruence|].
  split.
  { rewrite Hc. apply set_eq. intros x.
    rewrite dom_insert, elem_of_union, elem_of_singleton.
    split; [intros [->|]; [apply elem_of_dom; eauto|assumption]|auto]. }
  unfold the_update, apply_update; cbn.
  repeat split.
  - intros ->. reflexivity.
  - intros k ->. reflexivity.
Qed.

Lemma update_writes_one_row_witness :
  exists new,
    contents (updateContent (quiet_env no_faults "c2") put1 world1).2 !! "c1" = Some new
    /\ c_title new = "New title"
    /\ c_authorId new = "u1"
    /\ c_updatedAt new = 1000.
Proof.
  destruct (update_writes_one_row (quiet_env no_faults "c2") put1 world1 200
              (ok_envelope (DContent (the_update (quiet_env no_faults "c2") put1 item1))
                 (Some "Content updated successfully") None)
              (updateContent (quiet_env no_faults "c2") put1 world1).2)
    as (old & new & Hold & Hnew & _ & _ & _ & Ha & Ht & _ & _ & _ & Hu).
  - vm_compute. reflexivity.
  - exists new. split; [exact Hnew|].
    assert (Hl : Some old = Some item1) by (rewrite <- Hold; vm_compute; reflexivity).
    inversion Hl; subst old.
    rewrite Ht, Ha, Hu. repeat split.
Defined.

(** A successful delete changes the status and deletedAt of one row and
    nothing else in it: the version is not raised and no snapshot is
    written; every other row and the tag dictionary are as they were. *)
Theorem delete_changes_status_and_deletedAt_only env req w st e w' :
  deleteContent env req w = (Ok (Json st e), w') ->
  exists old new,
    contents w !! req_id req = Some old
    /\ contents w' !! req_id req = Some new
    /\ new = mkContent (c_id old) (c_title old) (c_body old) "deleted" (c_version old)
               (c_authorId old) (c_categoryId old) (c_tags old) (c_metadata old)
               (c_createdAt old) (c_updatedAt old) (c_publishedAt old) (Some (now env))
    /\ (forall id, id <> req_id req -> contents w' !! id = contents w !! id)
    /\ contentVersions w' = contentVersions w
    /\ tagNames w' = tagNames w.
Proof.
  intros H.
  destruct (deleteContent_success_world _ _ _ _ _ _ H)
    as (old & Hold & _ & Hc & Ht & Hv & _).
  exists old, (the_delete env old).
  split; [exact Hold|].
  split; [rewrite Hc; apply lookup_insert_eq|].
  split; [reflexivity|].
  split; [intros id Hne; rewrite Hc; apply lookup_insert_ne; congruence|].
  auto.
Qed.

Lemma delete_changes_status_and_deletedAt_only_witness :
  exists new,
    contents (deleteContent (quiet_env no_faults "c2") (by_id "c1" author) world1).2 !! "c1"
      = Some new
    /\ c_version new = 3
    /\ c_deletedAt new = Some 1000.
Proof.
  destruct (delete_changes_status_and_deletedAt_only (quiet_env no_faults "c2")
              (by_id "c1" author) world1 200
              (ok_envelope DNone (Some "Content deleted successfully") None)
              (deleteContent (quiet_env no_faults "c2") (by_id "c1" author) world1).2)
    as (old & new & Hold & Hnew & Heq & _).
  - vm_compute. reflexivity.
  - exists new. split; [exact Hnew|].
    assert (Hl : Some old = Some item1) by (rewrite <- Hold; vm_compute; reflexivity).
    inversion Hl; subst old.
    rewrite Heq. split; reflexivity.
Defined.

(** ** Publish *)

(** publishContent never touches the search index, the version history,
    the tag dictionary or the view table, and never asks for an analysis,
    whether it succeeds or not: the document in the index keeps the status
    it had. *)
Theorem publish_leaves_index_and_history env req w :
  exists out w',
    publishContent env req w = (Ok out, w')
    /\ searchDocs w' = searchDocs w
    /\ contentVersions w' = contentVersions w
    /\ contentViews w' = contentViews w
    /\ tagNames w' = tagNames w
    /\ (forall c ok, In (c, ok) (calls_since w w') ->
        downstream_of c <> Some Analysis /\ downstream_of c <> Some SearchSync).
Proof.
  unfold publishContent. unfold_prims. crunch_goal.
  all: do 2 eexists; split; [reflexivity|]; cbn.
  all: repeat split; try apply union_empty_r_L.
  all: read_calls; repeat (destruct H as [H|H]; [inversion H; subst; discriminate|]);
       try destruct H.
Qed.

(** A successful publish sets the status to published and publishedAt to
    the time of the request and keeps every other field of the row, the
    version included; it answers with the row it stored, and the followers
    are notified exactly once. *)
Theorem publish_sets_status_and_publishedAt env req w st e w' :
  publishContent env req w = (Ok (Json st e), w') ->
  exists old new,
    contents w !! req_id req = Some old
    /\ contents w' !! req_id req = Some new
    /\ e = ok_envelope (DContent new) (Some "Content published successfully") None
    /\ new = mkContent (c_id old) (c_title old) (c_body old) "published" (c_version old)
               (c_authorId old) (c_categoryId old) (c_tags old) (c_metadata old)
               (c_createdAt old) (c_updatedAt old) (Some (now env)) (c_deletedAt old)
    /\ count_calls is_notify (calls_since w w') = 1%nat.
Proof.
  intros H.
  destruct (publishContent_success_world _ _ _ _ _ _ H) as (old & Hold & He & Hc & Hcalls).
  exists old, (the_publish env old).
  split; [exact Hold|].
  split; [rewrite Hc; apply lookup_insert_eq|].
  split; [exact He|].
  split; [reflexivity|].
  rewrite Hcalls. reflexivity.
Qed.

Lemma publish_sets_status_and_publishedAt_witness :
  exists old new,
    contents world1 !! "c1" = Some old
    /\ contents (publishContent (quiet_env no_faults "c2") (by_id "c1" stranger) world1).2 !! "c1"
       = Some new
    /\ ok_envelope (DContent (the_publish (quiet_env no_faults "c2") item1))
         (Some "Content published successfully") None
       = ok_envelope (DContent new) (Some "Content published successfully") None
    /\ new = mkContent (c_id old) (c_title old) (c_body old) "published" (c_version old)
               (c_authorId old) (c_categoryId old) (c_tags old) (c_metadata old)
               (c_createdAt old) (c_updatedAt old) (Some 1000) (c_deletedAt old)
    /\ count_calls is_notify
         (calls_since world1
            (publishContent (quiet_env no_faults "c2") (by_id "c1" stranger) world1).2) = 1%nat.
Proof.
  apply (publish_sets_status_and_publishedAt (quiet_env no_faults "c2")
           (by_id "c1" stranger) world1 200).
  vm_compute. reflexivity.
Defined.



(** ** Create and read *)

(** A successful create adds exactly one row, under an id that was free:
    every row that was there is as it was.  The new row has the caller as
    its author, the title and body of the request, no publishedAt and no
    deletedAt, and the search index holds it under its id. *)
Theorem create_adds_one_fresh_row env req w st e w' :
  createContent env req w = (Ok (Json st e), w') ->
  exists c,
    e = ok_envelope (DContent c) (Some "Content created successfully") None
    /\ c_id c = new_id env
    /\ contents w !! c_id c = None
    /\ contents w' = <[c_id c := c]> (contents w)
    /\ (forall id, id <> c_id c -> contents w' !! id = contents w !! id)
    /\ c_authorId c = u_id (req_user req)
    /\ b_title (req_body req) = Some (c_title c)
    /\ b_body (req_body req) = Some (c_body c)
    /\ c_publishedAt c = None
    /\ c_deletedAt c = None
    /\ searchDocs w' !! c_id c = Some c
    /\ contentVersions w' = contentVersions w.
Proof.
  intros H. unfold createContent in H. unfold_prims.
  cbn in H.
  destruct (fails env CContentCreate) eqn:F0; cbn in H; [discriminate H|].
  destruct (b_title (req_body req)) as [t|] eqn:Ht; cbn in H; [|discriminate H].
  destruct (b_body (req_body req)) as [b|] eqn:Hb; cbn in H; [|discriminate H].
  crunch H.
  all: inversion H; subst; clear H; eexists; cbn.
  all: split; [reflexivity|]; split; [reflexivity|]; split; [assumption|].
  all: split; [reflexivity|].
  all: split; [intros id Hne; cbn in Hne; apply lookup_insert_ne; congruence|].
  all: repeat split; apply lookup_insert_eq.
Qed.

Lemma create_adds_one_fresh_row_witness :
  exists c,
    c_id c = "c2"
    /\ contents world1 !! c_id c = None
    /\ searchDocs (createContent (quiet_env no_faults "c2") post1 world1).2 !! c_id c = Some c.
Proof.
  destruct (create_adds_one_fresh_row (quiet_env no_faults "c2") post1 world1 201
              (match (createContent (quiet_env no_faults "c2") post1 world1).1 with
               | Ok (Json _ e) => e
               | _ => ok_envelope DNone None None
               end)
              (createContent (quiet_env no_faults "c2") post1 world1).2)
    as (c & _ & Hid & Hfree & _ & _ & _ & _ & _ & _ & _ & Hidx & _).
  - vm_compute. reflexivity.
  - exists c. auto.
Defined.

(** A read of an existing row answers with that row, status 200, whether
    or not the view could be recorded: a rejected view insert is neither
    reported nor logged.  The content table is never changed by a read;
    the view table gains one row (content id, caller, address) exactly when
    the insert went through. *)
Theorem read_ignores_view_failure env req w c :
  fails env (CContentFindUnique (req_id req)) = false ->
  contents w !! req_id req = Some c ->
  exists w',
    getContentById env req w = (Ok (Json 200 (ok_envelope (DContent c) None None)), w')
    /\ contents w' = contents w
    /\ logged w' = logged w
    /\ contentViews w' =
         (if fails env (CViewCreate (req_id req)) then contentViews w
          else contentViews w ++
                 [mkContentView (req_id req) (u_id (req_user req)) (req_ip req)]).
Proof.
  intros F L. unfold getContentById. unfold_prims. cbn. rewrite F. cbn. rewrite L.
  destruct (fails env (CViewCreate (req_id req))); cbn.
  all: eexists; split; [reflexivity|]; cbn; repeat split.
Qed.

Lemma read_ignores_view_failure_witness :
  exists w',
    getContentById (quiet_env (fun c => bool_decide (c = CViewCreate "c1")) "c2")
      (by_id "c1" stranger) world1
      = (Ok (Json 200 (ok_envelope (DContent item1) None None)), w')
    /\ contents w' = contents world1
    /\ logged w' = logged world1
    /\ contentViews w' =
         (if fails (quiet_env (fun c => bool_decide (c = CViewCreate "c1")) "c2")
               (CViewCreate "c1")
          then contentViews world1
          else contentViews world1 ++ [mkContentView "c1" "u2" "10.0.0.1"]).
Proof.
  apply (read_ignores_view_failure
           (quiet_env (fun c => bool_decide (c = CViewCreate "c1")) "c2")
           (by_id "c1" stranger) world1 item1).
  - reflexivity.
  - vm_compute. reflexivity.
Defined.

(** What a create answers can be read back: a read of the id of the
    created item, in the world the create left, answers with the same item. *)
Theorem create_then_read env1 env2 req1 req2 w st e w1 c :
  createContent env1 req1 w = (Ok (Json st e), w1) ->
  data e = DContent c ->
  req_id req2 = c_id c ->
  fails env2 (CContentFindUnique (c_id c)) = false ->
  exists w2,
    getContentById env2 req2 w1 = (Ok (Json 200 (ok_envelope (DContent c) None None)), w2).
Proof.
  intros Hc Hd Hid F.
  destruct (create_adds_one_fresh_row _ _ _ _ _ _ Hc) as (c' & He & _ & _ & Hw1 & _).
  rewrite He in Hd. cbn in Hd. inversion Hd; subst c'; clear Hd.
  destruct (read_ignores_view_failure env2 req2 w1 c) as (w2 & Hr & _).
  - rewrite Hid. exact F.
  - rewrite Hid, Hw1. apply lookup_insert_eq.
  - exists w2. exact Hr.
Qed.

Lemma create_then_read_witness :
  exists c w2,
    c_title c = "A"
    /\ getContentById (quiet_env no_faults "c3") (by_id "c2" stranger)
         (createContent (quiet_env no_faults "c2") post1 world1).2
       = (Ok (Json 200 (ok_envelope (DContent c) None None)), w2).
Proof.
  pose (c := mkContent "c2" "A" "B" "draft" 1 "u1" None (list_to_set ["x"; "y"; "x"])
               (VObj []) 1000 1000 None None).
  destruct (create_then_read (quiet_env no_faults "c2") (quiet_env no_faults "c3")
              post1 (by_id "c2" stranger) world1 201
              (ok_envelope (DContent c) (Some "Content created successfully") None)
              (createContent (quiet_env no_faults "c2") post1 world1).2 c)
    as (w2 & Hr).
  - vm_compute. reflexivity.
  - reflexivity.
  - reflexivity.
  - reflexivity.
  - exists c, w2. split; [reflexivity|exact Hr].
Defined.

(** ** Invariants of the handlers *)

Lemma same_row_later_refl c : same_row_later c c.
Proof. unfold same_row_later. repeat split; lia. Qed.

Lemma keyed_insert (m : gmap string Content) k v :
  (forall id c, m !! id = Some c -> c_id c = id) ->
  c_id v = k ->
  forall id c, <[k := v]> m !! id = Some c -> c_id c = id.
Proof.
  intros Hm Hv id c. destruct (decide (k = id)) as [E|Hne].
  - rewrite E, lookup_insert_eq. intros E'. inversion E'; subst c. congruence.
  - rewrite lookup_insert_ne by exact Hne. apply Hm.
Qed.

Lemma rows_kept_insert (m : gmap string Content) k old v :
  m !! k = Some old ->
  same_row_later old v ->
  forall id c, m !! id = Some c ->
    exists c', <[k := v]> m !! id = Some c' /\ same_row_later c c'.
Proof.
  intros Hk Hv id c Hc. destruct (decide (k = id)) as [E|Hne].
  - rewrite E, lookup_insert_eq. exists v. split; [reflexivity|]. congruence.
  - rewrite lookup_insert_ne by exact Hne. exists c. split; [exact Hc|].
    apply same_row_later_refl.
Qed.

Lemma rows_kept_fresh (m : gmap string Content) k v :
  m !! k = None ->
  forall id c, m !! id = Some c ->
    exists c', <[k := v]> m !! id = Some c' /\ same_row_later c c'.
Proof.
  intros Hk id c Hc. destruct (decide (k = id)) as [E|Hne]; [congruence|].
  rewrite lookup_insert_ne by exact Hne. exists c. split; [exact Hc|].
  apply same_row_later_refl.
Qed.

Lemma rows_kept_same (m : gmap string Content) :
  forall id c, m !! id = Some c -> exists c', m !! id = Some c' /\ same_row_later c c'.
Proof. intros id c Hc. exists c. split; [exact Hc|apply same_row_later_refl]. Qed.

Lemma apply_update_later d c :
  ud_version d = None \/ ud_version d = Some (c_version c + 1) ->
  same_row_later c (apply_update d c).
Proof.
  intros Hv. unfold same_row_later, apply_update; cbn. repeat split.
  destruct Hv as [-> | ->]; cbn; lia.
Qed.

(** No handler ever removes a content row, changes the id, author or
    creation time of a row, or lowers a version; rows stay filed under
    their own id; the version history and the log are only appended to. *)
Theorem handlers_keep_rows_and_history h env req w out w' :
  run_handler h env req w = (Ok out, w') ->
  (store_keyed w -> store_keyed w')
  /\ (forall id c, contents w !! id = Some c ->
      exists c', contents w' !! id = Some c' /\ same_row_later c c')
  /\ (exists added, contentVersions w' = contentVersions w ++ added)
  /\ (exists added, logged w' = logged w ++ added).
Proof.
  intros H. unfold store_keyed.
  destruct h; cbn [run_handler] in H.
  - unfold createContent in H. unfold_prims. cbn in H.
    destruct (fails env CContentCreate) eqn:F0; cbn in H;
      [|destruct (b_title (req_body req)); cbn in H;
        [destruct (b_body (req_body req)); cbn in H|]].
    all: crunch H.
    all: inversion H; subst out w'; clear H; cbn.
    all: split; [intros Hk; first [exact Hk | apply keyed_insert; [exact Hk|reflexivity]]|].
    all: split; [first [apply rows_kept_same | apply rows_kept_fresh; assumption]|].
    all: split; [exists []; symmetry; apply app_nil_r|].
    all: rewrite <- ?app_assoc; eexists; reflexivity.
  - unfold getAllContent in H. unfold_prims.
    destruct (fails env CContentCount); [|destruct (fails env CContentFindMany);
      [|destruct (db_findMany _ _ _ _ _ _ _)]].
    all: inversion H; subst out w'; clear H; cbn.
    all: split; [auto|]; split; [apply rows_kept_same|].
    all: split; [exists []; symmetry; apply app_nil_r|].
    all: first [exists []; symmetry; apply app_nil_r | eexists; reflexivity].
  - unfold getContentById in H. unfold_prims. crunch H.
    all: inversion H; subst out w'; clear H; cbn.
    all: split; [auto|]; split; [apply rows_kept_same|].
    all: split; [exists []; symmetry; apply app_nil_r|].
    all: first [exists []; symmetry; apply app_nil_r | eexists; reflexivity].
  - unfold updateContent in H. unfold_prims. crunch H.
    all: inversion H; subst out w'; clear H; cbn.
    all: split;
      [intros Hk;
       first [exact Hk
             | apply keyed_insert; [exact Hk|cbn; apply Hk; assumption]]|].
    all: split;
      [first [apply rows_kept_same
             | eapply rows_kept_insert; [eassumption|];
               apply apply_update_later; right; reflexivity]|].
    all: split; [first [exists []; symmetry; apply app_nil_r | eexists; reflexivity]|].
    all: rewrite <- ?app_assoc;
      first [exists []; symmetry; apply app_nil_r | eexists; reflexivity].
  - unfold deleteContent in H. unfold_prims. crunch H.
    all: inversion H; subst out w'; clear H; cbn.
    all: split;
      [intros Hk;
       first [exact Hk
             | apply keyed_insert; [exact Hk|cbn; apply Hk; assumption]]|].
    all: split;
      [first [apply rows_kept_same
             | eapply rows_kept_insert; [eassumption|];
               apply apply_update_later; left; reflexivity]|].
    all: split; [exists []; symmetry; apply app_nil_r|].
    all: rewrite <- ?app_assoc;
      first [exists []; symmetry; apply app_nil_r | eexists; reflexivity].
  - unfold searchContent in H. unfold_prims.
    destruct (q_filters (req_query req)) as [s|];
      [destruct (negb (s =? "")%string); [destruct (JSON_parse env s)|]|].
    all: cbn in H; try destruct (fails env CSearchQuery).
    all: inversion H; subst out w'; clear H; cbn.
    all: split; [auto|]; split; [apply rows_kept_same|].
    all: split; [exists []; symmetry; apply app_nil_r|].
    all: first [exists []; symmetry; apply app_nil_r | eexists; reflexivity].
  - unfold publishContent in H. unfold_prims. crunch H.
    all: inversion H; subst out w'; clear H; cbn.
    all: split;
      [intros Hk;
       first [exact Hk
             | apply keyed_insert; [exact Hk|cbn; apply Hk; assumption]]|].
    all: split;
      [first [apply rows_kept_same
             | eapply rows_kept_insert; [eassumption|];
               apply apply_update_later; left; reflexivity]|].
    all: split; [exists []; symmetry; apply app_nil_r|].
    all: rewrite <- ?app_assoc;
      first [exists []; symmetry; apply app_nil_r | eexists; reflexivity].
Qed.

Lemma handlers_keep_rows_and_history_witness :
  exists c',
    contents (updateContent (quiet_env no_faults "c2") put1 world1).2 !! "c1" = Some c'
    /\ same_row_later item1 c'.
Proof.
  apply (handlers_keep_rows_and_history HUpdate (quiet_env no_faults "c2") put1 world1
           (Json 200 (ok_envelope (DContent (the_update (quiet_env no_faults "c2") put1 item1))
                        (Some "Content updated successfully") None))
           (updateContent (quiet_env no_faults "c2") put1 world1).2).
  - vm_compute. reflexivity.
  - vm_compute. reflexivity.
Defined.

(** ** Exactness of the page count *)

Lemma round_half_even_spec n d :
  0 < d -> - d <= 2 * (n - round_half_even n d * d) <= d.
Proof.
  intros Hd. unfold round_half_even.
  pose proof (Z.div_mod n d ltac:(lia)) as Hdm.
  pose proof (Z.mod_pos_bound n d Hd) as Hb.
  generalize dependent (n / d). generalize dependent (n mod d). intros r Hr q Hq.
  destruct (Z.ltb_spec (2 * r) d); [nia|].
  destruct (Z.ltb_spec d (2 * r)); [nia|].
  destruct (Z.even q); nia.
Qed.

Lemma binade_bounds n d :
  0 < n -> 0 < d ->
  Z.log2 n - Z.log2 d - 1 <= binade n d <= Z.log2 n - Z.log2 d
  /\ (0 <= binade n d -> d * 2 ^ binade n d <= n)
  /\ (binade n d < 0 -> d <= n * 2 ^ (- binade n d)).
Proof.
  intros Hn Hd. unfold binade.
  destruct (Z.log2_spec n Hn) as [Hn1 Hn2].
  destruct (Z.log2_spec d Hd) as [Hd1 Hd2].
  pose proof (Z.log2_nonneg n) as Ln. pose proof (Z.log2_nonneg d) as Ld.
  set (a := Z.log2 n) in *. set (b := Z.log2 d) in *.
  replace (Z.succ a) with (a + 1) in Hn2 by lia.
  replace (Z.succ b) with (b + 1) in Hd2 by lia.
  destruct (Z.leb_spec 0 (a - b)) as [He|He].
  - destruct (Z.leb_spec (d * 2 ^ (a - b)) n) as [Ht|Ht].
    + split; [lia|]. split; [intros _; exact Ht|lia].
    + split; [lia|]. split.
      * intros He'.
        assert (Hp : 2 ^ a = 2 ^ (a - b - 1) * 2 ^ (b + 1)).
        { rewrite <- Z.pow_add_r by lia; f_equal; lia. }
        assert (0 < 2 ^ (a - b - 1)) by (apply Z.pow_pos_nonneg; lia).
        nia.
      * intros He'. assert (a - b = 0) as E by lia. rewrite E in *.
        change (- (0 - 1)) with 1. change (2 ^ 1) with 2.
        assert (a = b) as E' by lia. rewrite E' in *. rewrite Z.pow_add_r in Hd2 by lia.
        change (2 ^ 1) with 2 in Hd2. lia.
  - destruct (Z.leb_spec d (n * 2 ^ (- (a - b)))) as [Ht|Ht].
    + split; [lia|]. split; [lia|intros _; exact Ht].
    + split; [lia|]. split; [lia|]. intros _.
      assert (Hp : 2 ^ (b + 1) = 2 ^ a * 2 ^ (- (a - b - 1))).
      { rewrite <- Z.pow_add_r by lia; f_equal; lia. }
      assert (0 < 2 ^ (- (a - b - 1))) by (apply Z.pow_pos_nonneg; lia).
      nia.
Qed.

Lemma round_half_even_1 n : round_half_even n 1 = n.
Proof. unfold round_half_even. rewrite Z.div_1_r, Z.mod_1_r. reflexivity. Qed.

Lemma Qred_inject_Z z : Qred (inject_Z z) = inject_Z z.
Proof.
  unfold Qred, inject_Z.
  generalize (Z.ggcd_gcd z 1) (Z.ggcd_correct_divisors z 1).
  destruct (Z.ggcd z 1) as (g, (q, r)). cbn [fst snd].
  rewrite Z.gcd_1_r. intros -> [Hq Hr].
  rewrite Z.mul_1_l in Hq, Hr. subst q r. reflexivity.
Qed.

Lemma to_pos_pow2 k : 0 <= k -> Z.pos (Z.to_pos (2 ^ k)) = 2 ^ k.
Proof. intros Hk. apply Z2Pos.id. apply Z.pow_pos_nonneg; lia. Qed.

Lemma log2_below_53 z : 0 < z < 2 ^ 53 -> 0 <= Z.log2 z <= 52.
Proof.
  intros [Hz Hb]. split; [apply Z.log2_nonneg|].
  apply Z.log2_lt_pow2 in Hb; lia.
Qed.

(** An integer below 2^53 is a double. *)
Lemma of_Z_exact z : 0 <= z < 2 ^ 53 -> of_Z z = Finite (inject_Z z).
Proof.
  intros [Hz Hb]. unfold of_Z, round64. cbn [Qnum Qden inject_Z].
  rewrite Z.abs_eq by lia.
  destruct (Z.eqb_spec z 0) as [->|Hne]; [reflexivity|].
  assert (Hpos : 0 < z) by lia.
  destruct (binade_bounds z 1 Hpos ltac:(lia)) as (Hr & Hlo & _).
  pose proof (log2_below_53 z ltac:(lia)) as Hl.
  change (Z.log2 1) with 0 in Hr.
  set (e := binade z 1) in *.
  assert (He : 0 <= e <= 52).
  { split; [|lia]. destruct (Z.leb_spec 0 e); [lia|].
    exfalso. unfold e, binade in *. change (Z.log2 1) with 0 in *.
    rewrite Z.sub_0_r in *. destruct (Z.leb_spec 0 (Z.log2 z)); [|lia].
    destruct (Z.leb_spec (1 * 2 ^ Z.log2 z) z); [lia|].
    destruct (Z.log2_spec z Hpos). lia. }
  rewrite Z.max_l by lia.
  destruct (Z.ltb_spec z 0); [lia|].
  destruct (Z.leb_spec 0 (e - 52)) as [Ht|Ht].
  - assert (e - 52 = 0) as -> by lia. change (2 ^ 0) with 1.
    rewrite !Z.mul_1_r, round_half_even_1.
    destruct (Z.leb_spec (2 ^ 1024) z).
    { exfalso. assert (2 ^ 53 < 2 ^ 1024) by (apply Z.pow_lt_mono_r; lia). lia. }
    f_equal. f_equal. lia.
  - set (k := - (e - 52)). assert (Hk : 0 < k) by lia.
    rewrite round_half_even_1, Z.mul_1_l.
    rewrite <- (Qred_inject_Z z).
    apply f_equal. apply Qred_complete. unfold Qeq. cbn [Qnum Qden inject_Z].
    rewrite to_pos_pow2 by lia. lia.
Qed.

(** The rounded quotient of two integers below 2^53 has the ceiling of the
    exact quotient: rounding moves it by less than 1 / L, too little to
    reach or cross an integer. *)
Lemma rounded_quotient_ceiling t L :
  0 < t < 2 ^ 53 -> 0 < L < 2 ^ 53 ->
  exists x,
    round64 (inject_Z t / inject_Z L) = Finite x
    /\ L * (Qceiling x - 1) < t <= L * Qceiling x.
Proof.
  intros [Ht Htb] [HL HLb].
  destruct L as [|p|p]; try lia.
  unfold round64, Qdiv, Qinv, Qmult, inject_Z. cbn [Qnum Qden].
  rewrite Z.mul_1_r, Pos.mul_1_l, Z.abs_eq by lia.
  destruct (Z.eqb_spec t 0); [lia|].
  destruct (binade_bounds t (Z.pos p) Ht HL) as (Hr & Hlo1 & Hlo2).
  pose proof (log2_below_53 t ltac:(lia)) as Hlt.
  pose proof (log2_below_53 (Z.pos p) ltac:(lia)) as HlL.
  set (e := binade t (Z.pos p)) in *.
  rewrite Z.max_l by lia.
  destruct (Z.ltb_spec t 0); [lia|].
  assert (Hwide : Z.pos p < 2 ^ (53 - e)).
  { destruct (Z.leb_spec 0 e) as [He|He].
    - specialize (Hlo1 He).
      assert (Hp : 2 ^ 53 = 2 ^ (53 - e) * 2 ^ e).
      { rewrite <- Z.pow_add_r by lia; f_equal; lia. }
      assert (0 < 2 ^ e) by (apply Z.pow_pos_nonneg; lia).
      nia.
    - specialize (Hlo2 He).
      assert (Hp : 2 ^ (53 - e) = 2 ^ 53 * 2 ^ (- e)).
      { rewrite <- Z.pow_add_r by lia; f_equal; lia. }
      assert (0 < 2 ^ (- e)) by (apply Z.pow_pos_nonneg; lia).
      nia. }
  destruct (Z.leb_spec 0 (e - 52)) as [HT|HT].
  - assert (e = 52) as E by lia. rewrite E in *.
    change (53 - 52) with 1 in Hwide. change (2 ^ 1) with 2 in Hwide.
    assert (p = 1%positive) as -> by lia.
    change (52 - 52) with 0. change (2 ^ 0) with 1.
    rewrite !Z.mul_1_r, round_half_even_1.
    destruct (Z.leb_spec (2 ^ 1024) t).
    { exfalso. assert (2 ^ 53 < 2 ^ 1024) by (apply Z.pow_lt_mono_r; lia). lia. }
    eexists. split; [reflexivity|].
    unfold Qceiling, Qfloor, Qopp, inject_Z. cbn [Qnum Qden]. rewrite Z.div_1_r. lia.
  - set (k := - (e - 52)) in *. assert (Hk : 0 < k) by lia.
    assert (HA : 0 < 2 ^ k) by (apply Z.pow_pos_nonneg; lia).
    assert (Hwide' : Z.pos p < 2 * 2 ^ k).
    { replace (2 * 2 ^ k) with (2 ^ (53 - e)); [exact Hwide|].
      replace (53 - e) with (1 + k) by lia. rewrite Z.pow_add_r by lia. reflexivity. }
    pose proof (round_half_even_spec (t * 2 ^ k) (Z.pos p) HL) as Hm.
    set (m := round_half_even (t * 2 ^ k) (Z.pos p)) in *.
    eexists. split; [reflexivity|].
    rewrite (Qceiling_comp _ _ (Qred_correct _)).
    unfold Qceiling, Qfloor, Qopp. cbn [Qnum Qden].
    rewrite to_pos_pow2 by lia. rewrite Z.mul_1_l.
    pose proof (Z.div_mod (- m) (2 ^ k) ltac:(lia)) as Hdm.
    pose proof (Z.mod_pos_bound (- m) (2 ^ k) HA) as Hb.
    generalize dependent ((- m) / 2 ^ k). generalize dependent ((- m) mod 2 ^ k).
    intros r Hrb q Hq.
    generalize dependent (2 ^ k). intros A. intros.
    nia.
Qed.

(** [Math.ceil(total / L)] for a count and a page size below 2^53 is the
    least number of pages of [L] rows that hold [total] rows. *)
Lemma ceil_div_exact total L :
  0 <= total < 2 ^ 53 -> 0 < L < 2 ^ 53 ->
  exists pages,
    Math_ceil (num_div (of_Z total) (Finite (inject_Z L))) = Num pages
    /\ L * (pages - 1) < total <= L * pages.
Proof.
  intros Ht HL. rewrite (of_Z_exact total Ht). unfold num_div.
  assert (Qeq_bool (inject_Z L) 0 = false) as ->.
  { destruct L; try lia. reflexivity. }
  destruct (Z.eq_dec total 0) as [->|Hne].
  - exists 0. split; [|lia].
    unfold Qdiv, Qmult, Qinv, inject_Z. destruct L; try lia. reflexivity.
  - destruct (rounded_quotient_ceiling total L ltac:(lia) HL) as (x & Hx & Hb).
    rewrite Hx. exists (Qceiling x). split; [reflexivity|exact Hb].
Qed.

(** What is left of the page count: when the limit given reads as the
    same positive integer L (below 2^53) under parseInt and under ToNumber,
    or is left out, the list and the search report limit L, and for a total
    below 2^53 their page count is the ceiling of total over L. *)
Theorem pagination_pages_for_integer_limit env req w st e w' L :
  getAllContent env req w = (Ok (Json st e), w')
  \/ searchContent env req w = (Ok (Json st e), w') ->
  parseInt_given (or_default (q_limit (req_query req)) 20) = Num L ->
  ToNumber (or_default (q_limit (req_query req)) 20) = Finite (inject_Z L) ->
  0 < L < 2 ^ 53 ->
  exists page total pages,
    pagination e = Some (mkPagination page (Num L) total pages)
    /\ (0 <= total < 2 ^ 53 ->
        exists p, pages = Num p /\ L * (p - 1) < total <= L * p).
Proof.
  intros Hrun HpI HtN HL.
  remember (or_default (q_limit (req_query req)) 20) as lim eqn:Hlim.
  destruct Hrun as [H|H].
  - unfold getAllContent in H. cbv zeta in H. rewrite <- Hlim in H.
    unfold_prims.
    destruct (fails env CContentCount); [discriminate H|].
    destruct (fails env CContentFindMany); [discriminate H|].
    destruct (db_findMany _ _ _ _ _ _ _); [|discriminate H].
    inversion H; subst st e w'; clear H. cbn [pagination ok_envelope].
    rewrite HpI, HtN. do 3 eexists. split; [reflexivity|].
    intros Ht. apply ceil_div_exact; assumption.
  - unfold searchContent in H. cbv zeta in H. rewrite <- Hlim in H.
    unfold_prims.
    match type of H with
    | context [match ?flt w with _ => _ end] =>
        destruct (flt w) as [[v|ex] w1]; [|discriminate H]
    end.
    destruct (fails env CSearchQuery); [discriminate H|].
    inversion H; subst st e w'; clear H. cbn [pagination ok_envelope].
    rewrite HpI, HtN. do 3 eexists. split; [reflexivity|].
    intros Ht. apply ceil_div_exact; assumption.
Qed.

Lemma pagination_pages_for_integer_limit_witness :
  exists page total pages,
    pagination (ok_envelope (DContents []) None
                  (Some (mkPagination (Num 1) (Num 20) 41 (Num 3))))
    = Some (mkPagination page (Num 20) total pages)
    /\ (0 <= total < 2 ^ 53 ->
        exists p, pages = Num p /\ 20 * (p - 1) < total <= 20 * p).
Proof.
  apply (pagination_pages_for_integer_limit (counting_env 41) (by_id "" author) empty_world 200
           (ok_envelope (DContents []) None (Some (mkPagination (Num 1) (Num 20) 41 (Num 3))))
           (getAllContent (counting_env 41) (by_id "" author) empty_world).2).
  - left. vm_compute. reflexivity.
  - vm_compute. reflexivity.
  - vm_compute. reflexivity.
  - split; [lia|reflexivity].
Defined.

(** A limit that reads as zero (0, the empty text, blanks) makes the page
    count of the list and of the search a value that is not finite, which
    the answer prints as null. *)
Theorem pagination_pages_null_for_zero_limit env req w st e w' :
  getAllContent env req w = (Ok (Json st e), w')
  \/ searchContent env req w = (Ok (Json st e), w') ->
  ToNumber (or_default (q_limit (req_query req)) 20) = Finite 0 ->
  exists p, pagination e = Some p /\ (0 <= pg_total p < 2 ^ 53 -> pg_pages p = NotFinite).
Proof.
  intros Hrun HtN.
  remember (or_default (q_limit (req_query req)) 20) as lim eqn:Hlim.
  assert (Hdiv : forall t, 0 <= t < 2 ^ 53 ->
                   Math_ceil (num_div (of_Z t) (Finite 0)) = NotFinite).
  { intros t Ht. rewrite (of_Z_exact t Ht). unfold num_div.
    change (Qeq_bool 0 0) with true. cbv iota.
    destruct (Qeq_bool (inject_Z t) 0); reflexivity. }
  destruct Hrun as [H|H].
  - unfold getAllContent in H. cbv zeta in H. rewrite <- Hlim in H.
    unfold_prims.
    destruct (fails env CContentCount); [discriminate H|].
    destruct (fails env CContentFindMany); [discriminate H|].
    destruct (db_findMany _ _ _ _ _ _ _); [|discriminate H].
    inversion H; subst st e w'; clear H. cbn [pagination ok_envelope].
    rewrite HtN. eexists. split; [reflexivity|]. cbn [pg_total pg_pages]. apply Hdiv.
  - unfold searchContent in H. cbv zeta in H. rewrite <- Hlim in H.
    unfold_prims.
    match type of H with
    | context [match ?flt w with _ => _ end] =>
        destruct (flt w) as [[v|ex] w1]; [|discriminate H]
    end.
    destruct (fails env CSearchQuery); [discriminate H|].
    inversion H; subst st e w'; clear H. cbn [pagination ok_envelope].
    rewrite HtN. eexists. split; [reflexivity|]. cbn [pg_total pg_pages]. apply Hdiv.
Qed.

Lemma pagination_pages_null_for_zero_limit_witness :
  exists p,
    pagination (ok_envelope (DContents []) None
                  (Some (mkPagination (Num 1) NotFinite 41 NotFinite))) = Some p
    /\ (0 <= pg_total p < 2 ^ 53 -> pg_pages p = NotFinite).
Proof.
  apply (pagination_pages_null_for_zero_limit (counting_env 41) (limit_query "") empty_world 200
           (ok_envelope (DContents []) None (Some (mkPagination (Num 1) NotFinite 41 NotFinite)))
           (getAllContent (counting_env 41) (limit_query "") empty_world).2).
  - left. vm_compute. reflexivity.
  - vm_compute. reflexivity.
Defined.

(** ** Filters *)

(** A [filters] parameter that is not JSON makes the search fail with the
    500 error before the search service is called: no call is made, and
    the syntax error is logged. *)
Theorem search_rejects_malformed_filters env req w s :
  q_filters (req_query req) = Some s ->
  s <> "" ->
  JSON_parse env s = None ->
  exists w',
    searchContent env req w = (Ok (Next (mkAppError "Failed to search content" 500)), w')
    /\ calls_since w w' = []
    /\ logged w' = logged w ++ [LogError "Error searching content:" SyntaxError]
    /\ contents w' = contents w
    /\ searchDocs w' = searchDocs w.
Proof.
  intros Hf Hs Hp. unfold searchContent. unfold_prims. cbv zeta. rewrite Hf.
  apply String.eqb_neq in Hs. rewrite Hs. cbn [negb]. rewrite Hp.
  eexists. split; [reflexivity|]. cbn. repeat split.
  unfold calls_since. cbn. apply drop_all.
Qed.

Lemma search_rejects_malformed_filters_witness :
  exists w',
    searchContent (quiet_env no_faults "c2") (filters_query "{oops") world1
      = (Ok (Next (mkAppError "Failed to search content" 500)), w')
    /\ calls_since world1 w' = []
    /\ logged w' = logged world1 ++ [LogError "Error searching content:" SyntaxError]
    /\ contents w' = contents world1
    /\ searchDocs w' = searchDocs world1.
Proof.
  apply (search_rejects_malformed_filters (quiet_env no_faults "c2") (filters_query "{oops")
           world1 "{oops").
  - reflexivity.
  - discriminate.
  - reflexivity.
Defined.

Lemma truthy_filter o :
  (if str_truthy (drop_empty o) then drop_empty o else None)
  = (if str_truthy o then o else None).
Proof.
  destruct o as [s|]; [|reflexivity]. cbn.
  destruct (String.eqb s "") eqn:E; cbn; [reflexivity|]. rewrite E. reflexivity.
Qed.

(** A status, category, author or search filter given with no text is no
    filter: the list answers as if the parameter had been left out. *)
Theorem list_ignores_empty_filters env req w :
  getAllContent env (with_query (without_empty_filters (req_query req)) req) w
  = getAllContent env req w.
Proof.
  unfold getAllContent, with_query, without_empty_filters. cbn [req_query q_page q_limit
    q_status q_categoryId q_authorId q_sortBy q_order q_search].
  rewrite !truthy_filter. reflexivity.
Qed.
